(** * Product resolver of the price tracker: URL classification and
      identifier extraction (server action [actions.js])

    The development embeds [getRelianceDigitalArticleId],
    [getProductDetails] and [addProduct] and proves the properties the
    design document states about them.

    Strings are JavaScript strings seen as sequences of code units; a
    character of [string] stands for one code unit in the range 0..255.
    Host names and path names produced by the [URL] class are ASCII
    (punycode and percent-encoding), so every string the path strategies
    compute on is covered exactly. *)

From Stdlib Require Import String Ascii List Bool NArith ZArith Lia.
Import ListNotations.
Local Open Scope list_scope.
Local Open Scope string_scope.

(** ** JavaScript primitives used by the source *)

Module JS.

(** Completion of a statement list or of an awaited promise: a value,
    or a thrown [Error] identified by its [message]. *)
Inductive Completion (A : Type) : Type :=
| Normal (value : A)
| Throw (message : string).
Arguments Normal {A} value.
Arguments Throw {A} message.

Definition bind {A B : Type} (c : Completion A) (k : A -> Completion B)
  : Completion B :=
  match c with
  | Normal a => k a
  | Throw m => Throw m
  end.

(** Truthiness of a string: only the empty string is falsy. *)
Definition truthy (s : string) : bool :=
  match s with
  | EmptyString => false
  | String _ _ => true
  end.

(** [!v] for a value that is a string, [undefined] or [null]
    ([None] stands for both). *)
Definition falsy (v : option string) : bool :=
  match v with
  | Some s => negb (truthy s)
  | None => true
  end.

(** [v || d] for such a value and a string default. *)
Definition orDefault (v : option string) (d : string) : string :=
  match v with
  | Some s => if truthy s then s else d
  | None => d
  end.

(** [s.includes(sub)] *)
Fixpoint includes (s sub : string) : bool :=
  prefix sub s
  || match s with
     | EmptyString => false
     | String _ t => includes t sub
     end.

(** [s.split(sep)] for a one-character separator. *)
Fixpoint split (s : string) (sep : ascii) : list string :=
  match s with
  | EmptyString => [EmptyString]
  | String c t =>
      if Ascii.eqb c sep then EmptyString :: split t sep
      else match split t sep with
           | [] => [String c EmptyString]
           | h :: r => String c h :: r
           end
  end.

(** [a.length] as the integer it is in the source, so that
    [a.length - 1] can be negative. *)
Definition len {A : Type} (a : list A) : Z := Z.of_nat (List.length a).

(** [a[i]]: [undefined] ([None]) outside of the array, in particular
    at a negative index. *)
Definition item {A : Type} (a : list A) (i : Z) : option A :=
  if (i <? 0)%Z then None else nth_error a (Z.to_nat i).

(** [a.indexOf(x)]: first index holding [x], or -1. *)
Fixpoint indexOf (a : list string) (x : string) : Z :=
  match a with
  | [] => (-1)%Z
  | y :: r =>
      if String.eqb y x then 0%Z
      else let i := indexOf r x in
           if (i <? 0)%Z then (-1)%Z else (i + 1)%Z
  end.

(** [s.slice(0, n)] *)
Fixpoint slice0 (s : string) (n : nat) : string :=
  match n, s with
  | S n', String c t => String c (slice0 t n')
  | _, _ => EmptyString
  end.

(** [s.slice(n)] *)
Fixpoint sliceFrom (s : string) (n : nat) : string :=
  match n, s with
  | S n', String _ t => sliceFrom t n'
  | _, _ => s
  end.

Definition code (c : ascii) : N := N_of_ascii c.

(** [\d] *)
Definition isDigit (c : ascii) : bool :=
  ((48 <=? code c) && (code c <=? 57))%N.

(** [\w] *)
Definition isWord (c : ascii) : bool :=
  isDigit c
  || ((65 <=? code c) && (code c <=? 90))%N
  || ((97 <=? code c) && (code c <=? 122))%N
  || (code c =? 95)%N.

(** [l.toUpperCase()] for a one-character string [l]; it is only
    applied to characters matched by [\w]. *)
Definition toUpperCase (c : ascii) : ascii :=
  if ((97 <=? code c) && (code c <=? 122))%N
  then ascii_of_N (code c - 32) else c.

Fixpoint all (p : ascii -> bool) (s : string) : bool :=
  match s with
  | EmptyString => true
  | String c t => p c && all p t
  end.

(** [/^\d+$/.test(s)], and the truthiness of [s.match(/^\d+$/)]. *)
Definition allDigits (s : string) : bool := truthy s && all isDigit s.

(** [s.replace(/-/g, ' ')] *)
Fixpoint replaceHyphens (s : string) : string :=
  match s with
  | EmptyString => EmptyString
  | String c t =>
      String (if Ascii.eqb c "-" then " "%char else c) (replaceHyphens t)
  end.

(** [s.replace(/\b\w/g, l => l.toUpperCase())]: a word character is
    capitalized when no word character stands before it.  [prev]
    tells whether the character before the current position is a
    word character. *)
Fixpoint capitalizeFrom (prev : bool) (s : string) : string :=
  match s with
  | EmptyString => EmptyString
  | String c t =>
      String (if isWord c && negb prev then toUpperCase c else c)
             (capitalizeFrom (isWord c) t)
  end.

Definition capitalizeWords (s : string) : string := capitalizeFrom false s.

(** White space and line terminators removed by [trim], among the
    code units 0..255: TAB, LF, VT, FF, CR, SP and NBSP. *)
Definition isWhiteSpace (c : ascii) : bool :=
  ((9 <=? code c) && (code c <=? 13) || (code c =? 32) || (code c =? 160))%N.

Fixpoint trimStart (s : string) : string :=
  match s with
  | EmptyString => EmptyString
  | String c t => if isWhiteSpace c then trimStart t else s
  end.

Fixpoint trimEnd (s : string) : string :=
  match s with
  | EmptyString => EmptyString
  | String c t =>
      match trimEnd t with
      | EmptyString => if isWhiteSpace c then EmptyString
                       else String c EmptyString
      | t' => String c t'
      end
  end.

(** [s.trim()] *)
Definition trim (s : string) : string := trimEnd (trimStart s).

(** [s.match(/-(\d{9})-i-1/)]: the first capture group of the leftmost
    match, [None] for [null]. *)
Fixpoint matchItemCode (s : string) : option string :=
  match s with
  | EmptyString => None
  | String c t =>
      if Ascii.eqb c "-"
         && (String.length (slice0 t 9) =? 9)%nat
         && all isDigit (slice0 t 9)
         && prefix "-i-1" (sliceFrom t 9)
      then Some (slice0 t 9)
      else matchItemCode t
  end.

(** Form data and URL search parameters: name/value entries in order;
    [get] returns the first value of the name, or [null]. *)
Fixpoint entriesGet (entries : list (string * string)) (name : string)
  : option string :=
  match entries with
  | [] => None
  | (k, v) :: r => if String.eqb k name then Some v else entriesGet r name
  end.

End JS.

Import JS.

Declare Scope completion_scope.
Notation "x <- c ;; k" := (bind c (fun x => k))
  (at level 61, c at next level, right associativity) : completion_scope.
Local Open Scope completion_scope.

(** ** Collaborators of the server action *)

(** The seven store types are the string literals of the source. *)
Inductive StoreType : Type :=
| amazon | flipkart | croma | apple | vivo | iqoo | reliance_digital.

Definition storeTypeString (t : StoreType) : string :=
  match t with
  | amazon => "amazon"
  | flipkart => "flipkart"
  | croma => "croma"
  | apple => "apple"
  | vivo => "vivo"
  | iqoo => "iqoo"
  | reliance_digital => "reliance_digital"
  end.

(** The fields of a [URL] object that the source reads. *)
Record URL : Type := {
  hostname : string;
  pathname : string;
  searchParams : list (string * string)
}.

(** The [Response] of [fetch]: [text] is the completion of
    [await response.text()]. *)
Record Response : Type := {
  ok : bool;
  status : Z;
  text : Completion string
}.

(** One element selected by [$('li.specifications-list')]:
    [spanFirstChildText] is [$(el).find('span:first-child').text()] and
    [rightUlText] is [$(el).find('.specifications-list--right ul').text()]. *)
Record SpecificationsListItem : Type := {
  spanFirstChildText : string;
  rightUlText : string
}.

(** What the source queries of the document loaded by cheerio:
    the elements of [$('li.specifications-list')] in document order and
    [$('meta[property="og:image"]').attr('content')] ([None] when
    undefined). *)
Record Document : Type := {
  specificationsList : list SpecificationsListItem;
  ogImageContent : option string
}.

(** The rows handed to Prisma; [None] is [null] or [undefined]. *)
Record ProductData : Type := {
  data_name : option string;
  data_url : string;
  data_productId : option string;
  data_storeType : option StoreType;
  data_partNumber : option string;
  data_affiliateLink : option string
}.

(** Everything outside of the file: the [URL] constructor, [fetch] (the
    request headers are constant), [cheerio.load] with the queries made
    on its result, the message of the [TypeError] raised by reading a
    property of [undefined], and the persistence layer. *)
Record Platform : Type := {
  newURL : string -> Completion URL;
  fetch : string -> Completion Response;
  cheerioLoad : string -> Completion Document;
  undefinedPropertyMessage : string -> string;
  prismaProductCreate : ProductData -> Completion unit;
  revalidatePath : string -> Completion unit
}.

(** ** [getRelianceDigitalArticleId] *)

(** The callback of [.each]: the loop stops at the first element whose
    trimmed label is [Item Code], and [articleId] is assigned there. *)
Fixpoint eachSpecification (els : list SpecificationsListItem)
  (articleId : option string) : option string :=
  match els with
  | [] => articleId
  | el :: rest =>
      let label := trim (spanFirstChildText el) in
      if String.eqb label "Item Code"
      then Some (trim (rightUlText el))
      else eachSpecification rest articleId
  end.

(** Step 1 of the scraper. *)
Definition structuredTier (doc : Document) : option string :=
  eachSpecification (specificationsList doc) None.

(** Step 2 of the scraper, entered with the outcome of step 1. *)
Definition fallbackTier (doc : Document) (articleId : option string)
  : option string :=
  if falsy articleId then
    match ogImageContent doc with
    | Some imageMeta =>
        if truthy imageMeta then
          match matchItemCode imageMeta with
          | Some m => Some m
          | None => articleId
          end
        else articleId
    | None => articleId
    end
  else articleId.

Definition extractArticleId (doc : Document) : option string :=
  fallbackTier doc (structuredTier doc).

(** The [try] block of the scraper; the calls of [console.error] are
    not modelled. *)
Definition getRelianceDigitalArticleId_try (P : Platform) (url : string)
  : Completion (option string) :=
  response <- fetch P url ;;
  if negb (ok response) then Normal None
  else
    html <- text response ;;
    doc <- cheerioLoad P html ;;
    Normal (extractArticleId doc).

(** The scraper: any error of the [try] block yields [null]. *)
Definition getRelianceDigitalArticleId (P : Platform) (url : string)
  : Completion (option string) :=
  match getRelianceDigitalArticleId_try P url with
  | Normal articleId => Normal articleId
  | Throw _ => Normal None
  end.

(** ** [getProductDetails] *)

Record ProductDescriptor : Type := {
  name : string;
  productId : string;
  storeType : StoreType;
  partNumber : option string
}.

(** The object returned by [getProductDetails]: [{ error }] or a
    descriptor. *)
Inductive Details : Type :=
| Failure (error : string)
| Descriptor (d : ProductDescriptor).

Definition pathPartsNonEmpty (u : URL) : list string :=
  filter (fun p => (0 <? String.length p)%nat) (split (pathname u) "/").

(** [.replace(/-/g, ' ').replace(/\b\w/g, l => l.toUpperCase()).slice(0, 50) + '...'] *)
Definition titleName (raw : string) : string :=
  slice0 (capitalizeWords (replaceHyphens raw)) 50 ++ "...".

(** [.replace(/-/g, ' ').slice(0, 50) + '...'] *)
Definition plainName (raw : string) : string :=
  slice0 (replaceHyphens raw) 50 ++ "...".

(** [v.match(re)] and [v.replace(...)] on a value that may be
    [undefined]: reading the method of [undefined] throws. *)
Definition method (P : Platform) (property : string) (v : option string)
  : Completion string :=
  match v with
  | Some s => Normal s
  | None => Throw (undefinedPropertyMessage P property)
  end.

(** [if (!v) throw new Error(message)]: past the test, [v] is a
    non-empty string. *)
Definition throwIfNot (v : option string) (message : string)
  : Completion string :=
  match v with
  | Some s => if truthy s then Normal s else Throw message
  | None => Throw message
  end.

(** [nameSegment === 'product' || nameSegment.match(/^\d+$/) ? label : nameSegment] *)
Definition productOrNumeric (P : Platform) (nameSegment : option string)
  (label : string) : Completion string :=
  if match nameSegment with
     | Some s => String.eqb s "product"
     | None => false
     end
  then Normal label
  else
    s <- method P "match" nameSegment ;;
    Normal (if allDigits s then label else s).

Definition vivoLogic (P : Platform) (parsedUrl : URL)
  : Completion ProductDescriptor :=
  let pathParts := pathPartsNonEmpty parsedUrl in
  pid <- throwIfNot (item pathParts (len pathParts - 1))
           "Could not find a valid product ID in the Vivo URL." ;;
  let nameSegment :=
    if (2 <=? len pathParts)%Z
    then item pathParts (len pathParts - 2)
    else Some "Vivo Product" in
  rawName <- productOrNumeric P nameSegment "Vivo Product" ;;
  Normal {| name := "(Vivo) " ++ titleName rawName;
            productId := pid;
            storeType := vivo;
            partNumber := None |}.

Definition iqooLogic (P : Platform) (parsedUrl : URL)
  : Completion ProductDescriptor :=
  let pathParts := pathPartsNonEmpty parsedUrl in
  pid <- throwIfNot (item pathParts (len pathParts - 1))
           "Could not find a valid product ID in the iQOO URL." ;;
  let nameSegment :=
    if (2 <=? len pathParts)%Z
    then item pathParts (len pathParts - 2)
    else Some "iQOO Product" in
  rawName <- productOrNumeric P nameSegment "iQOO Product" ;;
  Normal {| name := "(iQOO) " ++ titleName rawName;
            productId := pid;
            storeType := iqoo;
            partNumber := None |}.

Definition extractionMessage : string :=
  "Could not extract the internal Item Code from the Reliance Digital page.".

Definition relianceDigitalLogic (P : Platform) (url : string)
  (parsedUrl : URL) : Completion ProductDescriptor :=
  scraped <- getRelianceDigitalArticleId P url ;;
  internalArticleId <-
    throwIfNot scraped extractionMessage ;;
  let pathParts := pathPartsNonEmpty parsedUrl in
  let slug := item pathParts (len pathParts - 1) in
  let nameBase :=
    if (1 <? len pathParts)%Z
    then item pathParts (len pathParts - 2)
    else slug in
  nameBase' <- method P "replace" nameBase ;;
  Normal {| name := "(R. Digital) " ++ titleName nameBase';
            productId := internalArticleId;
            storeType := reliance_digital;
            partNumber := slug |}.

Definition doubleQuote : ascii := "034"%char.

(** The message [Flipkart URL is missing a "pid" query parameter.] *)
Definition flipkartMessage : string :=
  "Flipkart URL is missing a "
  ++ String doubleQuote ("pid" ++ String doubleQuote " query parameter.").

Definition flipkartLogic (parsedUrl : URL) : Completion ProductDescriptor :=
  pid <- throwIfNot (entriesGet (searchParams parsedUrl) "pid")
           flipkartMessage ;;
  let name' :=
    plainName (orDefault (item (split (pathname parsedUrl) "/") 1)
                         "Flipkart Product") in
  Normal {| name := "(Flipkart) " ++ name';
            productId := pid;
            storeType := flipkart;
            partNumber := None |}.

Definition amazonMessage : string :=
  "Could not find a valid ASIN (e.g., /dp/B0CX59H5W7) in the Amazon URL.".

Definition amazonLogic (parsedUrl : URL) : Completion ProductDescriptor :=
  let pathParts := split (pathname parsedUrl) "/" in
  let dpIndex := indexOf pathParts "dp" in
  if (dpIndex =? -1)%Z then Throw amazonMessage
  else
    asin <- throwIfNot (item pathParts (dpIndex + 1)) amazonMessage ;;
    let name' :=
      plainName (orDefault (item pathParts (dpIndex - 1)) "Amazon Product") in
    Normal {| name := "(Amazon) " ++ name';
              productId := asin;
              storeType := amazon;
              partNumber := None |}.

Definition appleLogic (parsedUrl : URL) (partNumber : option string)
  : Completion ProductDescriptor :=
  partNumber' <- throwIfNot partNumber
                   "Apple products require a Part Number." ;;
  let name' :=
    plainName (orDefault (item (split (pathname parsedUrl) "/") 3)
                         "Apple Product") in
  Normal {| name := "(Apple) " ++ name';
            productId := partNumber';
            storeType := apple;
            partNumber := Some partNumber' |}.

Definition cromaMessage : string :=
  "Could not find a valid product ID in the Croma URL.".

Definition cromaLogic (parsedUrl : URL) : Completion ProductDescriptor :=
  let pathParts := split (pathname parsedUrl) "/" in
  pid <- throwIfNot (item pathParts (len pathParts - 1)) cromaMessage ;;
  if negb (allDigits pid) then Throw cromaMessage
  else
    let name' :=
      plainName (orDefault (item pathParts 1) "Croma Product") in
    Normal {| name := "(Croma) " ++ name';
              productId := pid;
              storeType := croma;
              partNumber := None |}.

Definition unsupportedMessage : string :=
  "Sorry, only Croma, Apple, Amazon, Flipkart, Vivo, iQOO, and Reliance Digital URLs are supported.".

(** The [try] block of [getProductDetails]. *)
Definition getProductDetails_try (P : Platform) (url : string)
  (partNumber : option string) : Completion ProductDescriptor :=
  parsedUrl <- newURL P url ;;
  if includes (hostname parsedUrl) "vivo.com"
     && negb (includes (hostname parsedUrl) "iqoo.com")
  then vivoLogic P parsedUrl
  else if includes (hostname parsedUrl) "iqoo.com"
  then iqooLogic P parsedUrl
  else if includes (hostname parsedUrl) "reliancedigital.in"
  then relianceDigitalLogic P url parsedUrl
  else if includes (hostname parsedUrl) "flipkart.com"
  then flipkartLogic parsedUrl
  else if includes (hostname parsedUrl) "amazon.in"
  then amazonLogic parsedUrl
  else if includes (hostname parsedUrl) "apple.com"
  then appleLogic parsedUrl partNumber
  else if includes (hostname parsedUrl) "croma.com"
  then cromaLogic parsedUrl
  else Throw unsupportedMessage.

(** [getProductDetails]: [catch (error) { return { error: error.message } }] *)
Definition getProductDetails (P : Platform) (url : string)
  (partNumber : option string) : Completion Details :=
  match getProductDetails_try P url partNumber with
  | Normal d => Normal (Descriptor d)
  | Throw message => Normal (Failure message)
  end.

(** ** [addProduct] *)

(** The object returned to the form: [{ error }] or [{ success }]. *)
Inductive ActionResult : Type :=
| ActionError (error : string)
| ActionSuccess (success : string).

(** Calls made to the persistence layer and to the cache, in order. *)
Inductive Call : Type :=
| PrismaProductCreate (data : ProductData)
| RevalidatePath (path : string).

(** Property reads on the object returned by [getProductDetails];
    [None] is [undefined]. *)
Definition details_error (details : Details) : option string :=
  match details with
  | Failure e => Some e
  | Descriptor _ => None
  end.

Definition details_field {A : Type} (f : ProductDescriptor -> A)
  (details : Details) : option A :=
  match details with
  | Failure _ => None
  | Descriptor d => Some (f d)
  end.

(** [`${v}`] *)
Definition template (v : option string) : string :=
  match v with
  | Some s => s
  | None => "undefined"
  end.

(** The value of [v] when it is truthy. *)
Definition whenTruthy (v : option string) : option string :=
  match v with
  | Some s => if truthy s then Some s else None
  | None => None
  end.

(** The action returns its result together with the calls it made.
    [console.error] is not modelled. *)
Definition addProduct (P : Platform) (formData : list (string * string))
  : Completion ActionResult * list Call :=
  let urlValue := entriesGet formData "url" in
  let partNumberValue := entriesGet formData "partNumber" in
  let affiliateLinkValue := entriesGet formData "affiliateLink" in
  match whenTruthy urlValue with
  | None => (Normal (ActionError "URL is required."), [])
  | Some url =>
      match getProductDetails P url partNumberValue with
      | Throw message => (Throw message, [])
      | Normal details =>
          match whenTruthy (details_error details) with
          | Some error => (Normal (ActionError error), [])
          | None =>
              let data :=
                {| data_name := details_field name details;
                   data_url := url;
                   data_productId := details_field productId details;
                   data_storeType := details_field storeType details;
                   data_partNumber :=
                     match details_field partNumber details with
                     | Some v => v
                     | None => None
                     end;
                   data_affiliateLink := whenTruthy affiliateLinkValue |} in
              match prismaProductCreate P data with
              | Throw _ =>
                  (Normal (ActionError
                             "Failed to add product. Is it a duplicate?"),
                   [PrismaProductCreate data])
              | Normal _ =>
                  match revalidatePath P "/" with
                  | Throw _ =>
                      (Normal (ActionError
                                 "Failed to add product. Is it a duplicate?"),
                       [PrismaProductCreate data; RevalidatePath "/"])
                  | Normal _ =>
                      (Normal (ActionSuccess
                                 ("Added "
                                  ++ template (details_field name details))),
                       [PrismaProductCreate data; RevalidatePath "/"])
                  end
              end
          end
      end
  end.

(** ** The retailer classifier *)

(** The host tests of [getProductDetails], in the order of the source,
    as a function to the strategy they select. *)
Definition classify (host : string) : option StoreType :=
  if includes host "vivo.com" && negb (includes host "iqoo.com")
  then Some vivo
  else if includes host "iqoo.com" then Some iqoo
  else if includes host "reliancedigital.in" then Some reliance_digital
  else if includes host "flipkart.com" then Some flipkart
  else if includes host "amazon.in" then Some amazon
  else if includes host "apple.com" then Some apple
  else if includes host "croma.com" then Some croma
  else None.

(** The block of the source run for a store type. *)
Definition strategy (t : StoreType) (P : Platform) (url : string)
  (partNumber : option string) (parsedUrl : URL)
  : Completion ProductDescriptor :=
  match t with
  | vivo => vivoLogic P parsedUrl
  | iqoo => iqooLogic P parsedUrl
  | reliance_digital => relianceDigitalLogic P url parsedUrl
  | flipkart => flipkartLogic parsedUrl
  | amazon => amazonLogic parsedUrl
  | apple => appleLogic parsedUrl partNumber
  | croma => cromaLogic parsedUrl
  end.

(** The parenthesized label put before the name of each store. *)
Definition storeLabel (t : StoreType) : string :=
  match t with
  | vivo => "(Vivo) "
  | iqoo => "(iQOO) "
  | reliance_digital => "(R. Digital) "
  | flipkart => "(Flipkart) "
  | amazon => "(Amazon) "
  | apple => "(Apple) "
  | croma => "(Croma) "
  end.

(** ** A platform given by tables

    Used to run the functions on concrete inputs: the URLs, responses and
    documents listed are known, every other URL is invalid and every other
    request fails; the messages are those of V8. *)

Fixpoint lookup {A : Type} (table : list (string * A)) (key : string)
  : option A :=
  match table with
  | [] => None
  | (k, v) :: r => if String.eqb k key then Some v else lookup r key
  end.

Definition tablePlatform (urls : list (string * URL))
  (responses : list (string * Response))
  (documents : list (string * Document)) : Platform :=
  {| newURL := fun url =>
       match lookup urls url with
       | Some u => Normal u
       | None => Throw "Invalid URL"
       end;
     fetch := fun url =>
       match lookup responses url with
       | Some r => Normal r
       | None => Throw "fetch failed"
       end;
     cheerioLoad := fun html =>
       match lookup documents html with
       | Some d => Normal d
       | None => Normal {| specificationsList := []; ogImageContent := None |}
       end;
     undefinedPropertyMessage := fun property =>
       "Cannot read properties of undefined (reading '" ++ property ++ "')";
     prismaProductCreate := fun _ => Normal tt;
     revalidatePath := fun _ => Normal tt |}.

(** A platform that knows one URL, with the host and path it parses to. *)
Definition urlPlatform (url host path : string) : Platform :=
  tablePlatform
    [(url, {| hostname := host; pathname := path; searchParams := [] |})]
    [] [].

(** ** The form component *)

(** [extractCromaProductId] of the form component
    ([AddProductForm.js]): the last non-empty path segment when it is
    numeric, [null] otherwise. *)
Definition extractCromaProductId (P : Platform) (url : string)
  : option string :=
  match newURL P url with
  | Throw _ => None
  | Normal parsedUrl =>
      let pathParts := pathPartsNonEmpty parsedUrl in
      let lastSegment := item pathParts (len pathParts - 1) in
      match lastSegment with
      | Some s => if truthy s && allDigits s then Some s else None
      | None => None
      end
  end.

(** ** Notions used in the statements *)

(** The last element of an array, if any. *)
Fixpoint lastOf (a : list string) : option string :=
  match a with
  | [] => None
  | x :: r =>
      match r with
      | [] => Some x
      | _ :: _ => lastOf r
      end
  end.

Definition amazonDescriptor (pre : list string) (asin : string)
  : ProductDescriptor :=
  {| name := "(Amazon) "
             ++ plainName (orDefault (lastOf pre) "Amazon Product");
     productId := asin;
     storeType := amazon;
     partNumber := None |}.

Definition isItemCode (el : SpecificationsListItem) : Prop :=
  trim (spanFirstChildText el) = "Item Code".

(** The messages of the errors raised by the platform are not empty:
    the [TypeError] of the [URL] constructor and the one of a property
    read on [undefined]. *)
Definition messagesNonEmpty (P : Platform) : Prop :=
  (forall url message, newURL P url = Throw message -> message <> EmptyString)
  /\ (forall property, undefinedPropertyMessage P property <> EmptyString).

(** ** Inputs of the runs *)

(** A long first path segment on Amazon. *)
Definition longAmazonUrl : string :=
  "https://www.amazon.in/Portable-Bluetooth-Speaker-With-Deep-Bass-And-Long-Battery-Life/dp/B0CX59H5W7".

Definition longAmazonPlatform : Platform :=
  urlPlatform longAmazonUrl "www.amazon.in"
    "/Portable-Bluetooth-Speaker-With-Deep-Bass-And-Long-Battery-Life/dp/B0CX59H5W7".

Definition cromaSlashUrl : string :=
  "https://www.croma.com/some-phone/p/123456/".

Definition cromaSlashPlatform : Platform :=
  urlPlatform cromaSlashUrl "www.croma.com" "/some-phone/p/123456/".

(** A product page without specification rows whose [og:image] names the
    item code, and one whose [Item Code] row has a blank value. *)
Definition relianceUrl : string :=
  "https://www.reliancedigital.in/apple-iphone-15/p/493838".

Definition relianceParsedUrl : URL :=
  {| hostname := "www.reliancedigital.in";
     pathname := "/apple-iphone-15/p/493838";
     searchParams := [] |}.

Definition fallbackDocument : Document :=
  {| specificationsList := [];
     ogImageContent := Some ".../foo-300012345-i-1-202.jpg" |}.

Definition blankValueDocument : Document :=
  {| specificationsList :=
       [ {| spanFirstChildText := "Brand"; rightUlText := "Apple" |};
         {| spanFirstChildText := " Item Code "; rightUlText := "   " |};
         {| spanFirstChildText := "Item Code"; rightUlText := "999999999" |} ];
     ogImageContent := Some ".../foo-300012345-i-1-202.jpg" |}.

Definition reliancePlatform (doc : Document) : Platform :=
  tablePlatform
    [(relianceUrl, relianceParsedUrl)]
    [(relianceUrl, {| ok := true; status := 200; text := Normal "<html>" |})]
    [("<html>", doc)].

(** ** The form component: extraction helpers and [getStoreDetails] *)

(** [s.toLowerCase()] on the code units 0..255: the letters A-Z and the
    accented capitals U+00C0..U+00DE, the multiplication sign U+00D7
    excepted, move 32 places up. *)
Definition toLowerCaseChar (c : ascii) : ascii :=
  if (((65 <=? code c) && (code c <=? 90))
      || ((192 <=? code c) && (code c <=? 222) && negb (code c =? 215)))%N
  then ascii_of_N (code c + 32) else c.

Fixpoint toLowerCase (s : string) : string :=
  match s with
  | EmptyString => EmptyString
  | String c t => String (toLowerCaseChar c) (toLowerCase t)
  end.

(** A character against an ASCII literal of a pattern with the [i]
    flag: both are compared after [a-z] is moved to [A-Z]; no other
    code unit is canonicalized to an ASCII one. *)
Definition eqbI (c l : ascii) : bool :=
  Ascii.eqb (toUpperCase c) (toUpperCase l).

(** The literal [lit] of such a pattern matched at the start of [s]. *)
Fixpoint prefixI (lit s : string) : bool :=
  match lit with
  | EmptyString => true
  | String l lit' =>
      match s with
      | EmptyString => false
      | String c s' => eqbI c l && prefixI lit' s'
      end
  end.

(** [[A-Z0-9]] with the [i] flag: the ASCII letters and digits. *)
Definition isAlnumI (c : ascii) : bool :=
  isDigit c
  || ((65 <=? code c) && (code c <=? 90))%N
  || ((97 <=? code c) && (code c <=? 122))%N.

(** [[^/?]] *)
Definition notSlashQuestion (c : ascii) : bool :=
  negb (Ascii.eqb c "/") && negb (Ascii.eqb c "?").

(** The longest prefix whose characters satisfy [p]: what a greedy
    [+] or [{n,}] over a character class first consumes. *)
Fixpoint takeWhile (p : ascii -> bool) (s : string) : string :=
  match s with
  | EmptyString => EmptyString
  | String c t => if p c then String c (takeWhile p t) else EmptyString
  end.

(** [extractFlipkartProductId] *)
Definition extractFlipkartProductId (P : Platform) (url : string)
  : option string :=
  match newURL P url with
  | Throw _ => None
  | Normal parsedUrl => entriesGet (searchParams parsedUrl) "pid"
  end.

(** [([A-Z0-9]{10})] at the start of [s]. *)
Definition tenAlnum (s : string) : option string :=
  if (String.length (slice0 s 10) =? 10)%nat && all isAlnumI (slice0 s 10)
  then Some (slice0 s 10) else None.

(** [/\/(?:dp|gp\/product)\/([A-Z0-9]{10})/i] tried at the start of
    [s]: the first alternative, then the second. *)
Definition asinAt (s : string) : option string :=
  match (if prefixI "/dp/" s then tenAlnum (sliceFrom s 4) else None) with
  | Some m => Some m
  | None => if prefixI "/gp/product/" s then tenAlnum (sliceFrom s 12)
            else None
  end.

(** [s.match(/\/(?:dp|gp\/product)\/([A-Z0-9]{10})/i)]: the capture of
    the leftmost match. *)
Fixpoint matchAsin (s : string) : option string :=
  match s with
  | EmptyString => None
  | String _ t =>
      match asinAt s with
      | Some m => Some m
      | None => matchAsin t
      end
  end.

(** [extractAmazonAsin] *)
Definition extractAmazonAsin (P : Platform) (url : string) : option string :=
  match newURL P url with
  | Throw _ => None
  | Normal parsedUrl => matchAsin (pathname parsedUrl)
  end.

(** [/\/product\/([^/?]+)/i] tried at the start of [s]. *)
Definition productSkuAt (s : string) : option string :=
  if prefixI "/product/" s
     && truthy (takeWhile notSlashQuestion (sliceFrom s 9))
  then Some (takeWhile notSlashQuestion (sliceFrom s 9)) else None.

(** [url.match(/\/product\/([^/?]+)/i)]: the capture of the leftmost
    match. *)
Fixpoint matchProductSku (s : string) : option string :=
  match s with
  | EmptyString => None
  | String _ t =>
      match productSkuAt s with
      | Some m => Some m
      | None => matchProductSku t
      end
  end.

(** [/([A-Z0-9]{5,}[A-Z0-9]\/[A-Z0-9])/i] tried at the start of [s].
    The slash can only stand right after the whole run of letters and
    digits that starts [s], so a match takes that run, of six characters
    or more, the slash and one more letter or digit. *)
Definition slashSkuAt (s : string) : option string :=
  let n := String.length (takeWhile isAlnumI s) in
  if (6 <=? n)%nat
     && prefix "/" (sliceFrom s n)
     && match sliceFrom s (n + 1) with
        | EmptyString => false
        | String c _ => isAlnumI c
        end
  then Some (slice0 s (n + 2)) else None.

(** [url.match(/([A-Z0-9]{5,}[A-Z0-9]\/[A-Z0-9])/i)]: the capture of
    the leftmost match. *)
Fixpoint matchSlashSku (s : string) : option string :=
  match s with
  | EmptyString => None
  | String _ t =>
      match slashSkuAt s with
      | Some m => Some m
      | None => matchSlashSku t
      end
  end.

(** [extractApplePartNumber] *)
Definition extractApplePartNumber (url : string) : option string :=
  match whenTruthy (matchProductSku url) with
  | Some m => Some m
  | None =>
      match whenTruthy (matchSlashSku url) with
      | Some m => if (7 <? String.length m)%nat then Some m else None
      | None => None
      end
  end.

(** The object returned by [getStoreDetails]. *)
Record StoreDetails : Type := {
  details_storeType : string;
  showPartNumber : bool;
  extractedPartNumber : option string
}.

(** [getStoreDetails] *)
Definition getStoreDetails (P : Platform) (url : string) : StoreDetails :=
  let lowerUrl := toLowerCase url in
  if includes lowerUrl "apple.com" then
    {| details_storeType := "unicorn"; showPartNumber := true;
       extractedPartNumber := extractApplePartNumber lowerUrl |}
  else if includes lowerUrl "flipkart.com" then
    {| details_storeType := "unknown"; showPartNumber := true;
       extractedPartNumber := extractFlipkartProductId P lowerUrl |}
  else if includes lowerUrl "amazon.in" then
    {| details_storeType := "unknown"; showPartNumber := true;
       extractedPartNumber := extractAmazonAsin P lowerUrl |}
  else if includes lowerUrl "croma.com" then
    {| details_storeType := "unknown"; showPartNumber := true;
       extractedPartNumber := extractCromaProductId P lowerUrl |}
  else if includes lowerUrl "reliancedigital.in" then
    {| details_storeType := "reliance_digital"; showPartNumber := false;
       extractedPartNumber := None |}
  else if includes lowerUrl "iqoo.com" then
    {| details_storeType := "iqoo"; showPartNumber := false;
       extractedPartNumber := None |}
  else if includes lowerUrl "vivo.com" then
    {| details_storeType := "vivo"; showPartNumber := false;
       extractedPartNumber := None |}
  else
    {| details_storeType := "unknown"; showPartNumber := false;
       extractedPartNumber := None |}.

(** ** [deleteProduct] *)

(** The [id] handed to [deleteProduct]: absent, a number or a string. *)
Inductive IdValue : Type :=
| IdUndefined
| IdNumber (n : Z)
| IdString (s : string).

Definition idTruthy (id : IdValue) : bool :=
  match id with
  | IdUndefined => false
  | IdNumber n => negb (n =? 0)%Z
  | IdString s => truthy s
  end.

Inductive DeleteCall : Type :=
| PrismaProductDelete (id : IdValue)
| RevalidatePathAfterDelete (path : string).

(** [deleteProduct], with [prisma.product.delete] as [prismaProductDelete];
    it returns its completion together with the calls it made. *)
Definition deleteProduct (P : Platform)
  (prismaProductDelete : IdValue -> Completion unit) (id : IdValue)
  : Completion unit * list DeleteCall :=
  if negb (idTruthy id) then (Normal tt, [])
  else
    match prismaProductDelete id with
    | Throw _ => (Normal tt, [PrismaProductDelete id])
    | Normal _ =>
        match revalidatePath P "/" with
        | Throw _ =>
            (Normal tt, [PrismaProductDelete id; RevalidatePathAfterDelete "/"])
        | Normal _ =>
            (Normal tt, [PrismaProductDelete id; RevalidatePathAfterDelete "/"])
        end
    end.

(** ** Further notions used in the statements *)

(** The host substring tested for each store type. *)
Definition signature (t : StoreType) : string :=
  match t with
  | vivo => "vivo.com"
  | iqoo => "iqoo.com"
  | reliance_digital => "reliancedigital.in"
  | flipkart => "flipkart.com"
  | amazon => "amazon.in"
  | apple => "apple.com"
  | croma => "croma.com"
  end.

Definition signatures : list string :=
  ["vivo.com"; "iqoo.com"; "reliancedigital.in"; "flipkart.com";
   "amazon.in"; "apple.com"; "croma.com"].

(** The label that Vivo and iQOO names fall back to, and the message of
    their failure. *)
Definition defaultLabel (t : StoreType) : string :=
  match t with
  | vivo => "Vivo Product"
  | _ => "iQOO Product"
  end.

Definition missingIdMessage (t : StoreType) : string :=
  match t with
  | vivo => "Could not find a valid product ID in the Vivo URL."
  | _ => "Could not find a valid product ID in the iQOO URL."
  end.

(** The segment before the last one, when there are two or more. *)
Definition beforeLast (a : list string) : option string :=
  if (2 <=? len a)%Z then item a (len a - 2) else None.

(** A character other than the hyphen. *)
Definition notHyphen (c : ascii) : bool := negb (Ascii.eqb c "-").

(** A character other than the ASCII capitals. *)
Definition notUpper (c : ascii) : bool :=
  negb ((65 <=? code c) && (code c <=? 90))%N.

(** The row that [addProduct] hands to Prisma for a descriptor. *)
Definition rowOf (url : string) (d : ProductDescriptor)
  (affiliateLink : option string) : ProductData :=
  {| data_name := Some (name d);
     data_url := url;
     data_productId := Some (productId d);
     data_storeType := Some (storeType d);
     data_partNumber := partNumber d;
     data_affiliateLink := whenTruthy affiliateLink |}.

(** ** Notions used in the statements on trimming and letter case *)

(** A string that starts, or that ends, with a white-space character. *)
Definition firstIsWhite (s : string) : bool :=
  match s with
  | EmptyString => false
  | String c _ => isWhiteSpace c
  end.

Fixpoint lastIsWhite (s : string) : bool :=
  match s with
  | EmptyString => false
  | String c t =>
      match t with
      | EmptyString => isWhiteSpace c
      | String _ _ => lastIsWhite t
      end
  end.

(** Two strings of the same length whose characters are equal, or are
    the two cases of one ASCII letter. *)
Fixpoint sameIgnoringCase (a b : string) : bool :=
  match a, b with
  | EmptyString, EmptyString => true
  | String x a', String y b' => eqbI x y && sameIgnoringCase a' b'
  | _, _ => false
  end.

(** [s] contains the ASCII text [lit], letter case ignored. *)
Fixpoint includesI (s lit : string) : bool :=
  prefixI lit s
  || match s with
     | EmptyString => false
     | String _ t => includesI t lit
     end.

(** A page whose second specification row is the item code, with white
    space around its label and its value, before another such row. *)
Definition structuredDocument : Document :=
  {| specificationsList :=
       [ {| spanFirstChildText := "Brand"; rightUlText := "Apple" |};
         {| spanFirstChildText := " Item Code ";
            rightUlText := "  300012345 " |};
         {| spanFirstChildText := "Item Code"; rightUlText := "999999999" |} ];
     ogImageContent := Some ".../foo-493838111-i-1-202.jpg" |}.

(** * Properties *)

(** ** Runs on concrete inputs *)

Example split_path :
  split "/Some-Great-Item/dp/B0CX59H5W7" "/"
  = [EmptyString; "Some-Great-Item"; "dp"; "B0CX59H5W7"].
Proof. reflexivity. Qed.

Example split_trailing_slash :
  split "/a/1/" "/" = [EmptyString; "a"; "1"; EmptyString].
Proof. reflexivity. Qed.

Example capitalizeWords_run :
  capitalizeWords (replaceHyphens "iqoo-z7-pro_x 5g") = "Iqoo Z7 Pro_x 5g".
Proof. reflexivity. Qed.

Example trim_run : trim "  Item Code  " = "Item Code".
Proof. reflexivity. Qed.

Example matchItemCode_run :
  matchItemCode ".../foo-300012345-i-1-202.jpg" = Some "300012345".
Proof. reflexivity. Qed.

Example matchItemCode_needs_hyphen :
  matchItemCode "foo300012345-i-1-202.jpg" = None.
Proof. reflexivity. Qed.

Example amazon_run :
  getProductDetails
    (urlPlatform "https://www.amazon.in/Some-Great-Item/dp/B0CX59H5W7"
       "www.amazon.in" "/Some-Great-Item/dp/B0CX59H5W7")
    "https://www.amazon.in/Some-Great-Item/dp/B0CX59H5W7" None
  = Normal (Descriptor {| name := "(Amazon) Some Great Item...";
                          productId := "B0CX59H5W7";
                          storeType := amazon;
                          partNumber := None |}).
Proof. reflexivity. Qed.

Example vivo_run :
  getProductDetails
    (urlPlatform "https://shop.vivo.com/in/product/10736"
       "shop.vivo.com" "/in/product/10736")
    "https://shop.vivo.com/in/product/10736" None
  = Normal (Descriptor {| name := "(Vivo) Vivo Product...";
                          productId := "10736";
                          storeType := vivo;
                          partNumber := None |}).
Proof. reflexivity. Qed.

Example invalid_url_run :
  getProductDetails (tablePlatform [] [] []) "not a url" None
  = Normal (Failure "Invalid URL").
Proof. reflexivity. Qed.

Example flipkart_run :
  getProductDetails
    (tablePlatform
       [("https://www.flipkart.com/product-name/p/itm123?pid=ABCD12345",
         {| hostname := "www.flipkart.com";
            pathname := "/product-name/p/itm123";
            searchParams := [("pid", "ABCD12345")] |})]
       [] [])
    "https://www.flipkart.com/product-name/p/itm123?pid=ABCD12345" None
  = Normal (Descriptor {| name := "(Flipkart) product name...";
                          productId := "ABCD12345";
                          storeType := flipkart;
                          partNumber := None |}).
Proof. reflexivity. Qed.

Example apple_without_part_number_run :
  getProductDetails
    (urlPlatform "https://www.apple.com/in/shop/buy-iphone/iphone-15"
       "www.apple.com" "/in/shop/buy-iphone/iphone-15")
    "https://www.apple.com/in/shop/buy-iphone/iphone-15" None
  = Normal (Failure "Apple products require a Part Number.").
Proof. reflexivity. Qed.

Example reliance_structured_run :
  getProductDetails
    (reliancePlatform
       {| specificationsList :=
            [ {| spanFirstChildText := "Item Code";
                 rightUlText := " 300012345 " |} ];
          ogImageContent := Some ".../foo-493838111-i-1-202.jpg" |})
    relianceUrl None
  = Normal (Descriptor {| name := "(R. Digital) P...";
                          productId := "300012345";
                          storeType := reliance_digital;
                          partNumber := Some "493838" |}).
Proof. reflexivity. Qed.

Example reliance_root_path_run :
  getProductDetails
    (tablePlatform
       [("https://www.reliancedigital.in/",
         {| hostname := "www.reliancedigital.in";
            pathname := "/";
            searchParams := [] |})]
       [("https://www.reliancedigital.in/",
         {| ok := true; status := 200; text := Normal "<html>" |})]
       [("<html>", fallbackDocument)])
    "https://www.reliancedigital.in/" None
  = Normal (Failure "Cannot read properties of undefined (reading 'replace')").
Proof. reflexivity. Qed.

(** ** Strings *)

Section Strings.

Lemma append_assoc (a b c : string) : (a ++ b) ++ c = a ++ (b ++ c).
Proof. induction a as [|x a IH]; simpl; [reflexivity | now rewrite IH]. Qed.

Lemma length_append (a b : string) :
  String.length (a ++ b) = String.length a + String.length b.
Proof. induction a as [|x a IH]; simpl; [reflexivity | now rewrite IH]. Qed.

Lemma length_replaceHyphens (s : string) :
  String.length (replaceHyphens s) = String.length s.
Proof. induction s as [|x s IH]; simpl; [reflexivity | now rewrite IH]. Qed.

Lemma length_capitalizeFrom (s : string) :
  forall prev, String.length (capitalizeFrom prev s) = String.length s.
Proof.
  induction s as [|x s IH]; intros prev; simpl; [reflexivity | now rewrite IH].
Qed.

Lemma length_slice0_le (n : nat) :
  forall s, String.length (slice0 s n) <= n.
Proof.
  induction n as [|n IH]; intros [|x s]; simpl; try lia.
  specialize (IH s). lia.
Qed.

Lemma length_slice0 (n : nat) :
  forall s, n <= String.length s -> String.length (slice0 s n) = n.
Proof.
  induction n as [|n IH]; intros [|x s]; simpl; intros H; try lia.
  rewrite IH; lia.
Qed.

Lemma slice0_all (n : nat) :
  forall s, String.length s <= n -> slice0 s n = s.
Proof.
  induction n as [|n IH]; intros [|x s]; simpl; intros H;
    try reflexivity; try lia.
  rewrite IH; [reflexivity | lia].
Qed.

Lemma slice0_sliceFrom (n : nat) :
  forall s, slice0 s n ++ sliceFrom s n = s.
Proof.
  induction n as [|n IH]; intros [|x s]; simpl; try reflexivity.
  now rewrite IH.
Qed.

Lemma prefix_split (p : string) :
  forall s, prefix p s = true -> exists rest, s = p ++ rest.
Proof.
  induction p as [|x p IH]; intros s H.
  - now exists s.
  - destruct s as [|y s]; simpl in H; [discriminate|].
    destruct (ascii_dec x y) as [->|]; [|discriminate].
    destruct (IH s H) as [rest ->]. now exists rest.
Qed.

Lemma prefix_append (p rest : string) : prefix p (p ++ rest) = true.
Proof.
  induction p as [|x p IH]; simpl; [now destruct rest|].
  destruct (ascii_dec x x); [exact IH | congruence].
Qed.

End Strings.

(** ** Completions *)

Lemma bind_Normal {A B : Type} (c : Completion A) (k : A -> Completion B)
  (b : B) :
  bind c k = Normal b -> exists a, c = Normal a /\ k a = Normal b.
Proof. destruct c as [a|m]; simpl; [eauto | discriminate]. Qed.

Lemma throwIfNot_Normal (v : option string) (message s : string) :
  throwIfNot v message = Normal s -> v = Some s /\ s <> EmptyString.
Proof.
  destruct v as [[|c t]|]; simpl; intros H; inversion H; subst.
  split; [reflexivity | discriminate].
Qed.

Lemma throwIfNot_falsy (v : option string) (message : string) :
  falsy v = true -> throwIfNot v message = Throw message.
Proof. destruct v as [[|c t]|]; simpl; intros H; congruence. Qed.

Lemma throwIfNot_truthy (s message : string) :
  s <> EmptyString -> throwIfNot (Some s) message = Normal s.
Proof. destruct s; simpl; congruence. Qed.

(** Inverts the equations [bind c k = Normal d] of the context. *)
Ltac invert_bind :=
  repeat match goal with
    | H : bind _ _ = Normal _ |- _ =>
        let a := fresh "a" in
        let Ha := fresh "Ha" in
        apply bind_Normal in H; destruct H as (a & Ha & H)
    | H : throwIfNot _ _ = Normal _ |- _ =>
        apply throwIfNot_Normal in H; destruct H
    | H : (if ?b then _ else _) = Normal _ |- _ =>
        destruct b eqn:?; try discriminate H
    | H : Normal _ = Normal _ |- _ => inversion H; subst; clear H
    end.

(** ** The dispatch of [getProductDetails] *)

(** The chain of host tests runs the strategy that [classify] names. *)
Lemma getProductDetails_try_dispatch (P : Platform) (url : string)
  (partNumber : option string) :
  getProductDetails_try P url partNumber
  = (parsedUrl <- newURL P url ;;
     match classify (hostname parsedUrl) with
     | Some t => strategy t P url partNumber parsedUrl
     | None => Throw unsupportedMessage
     end).
Proof.
  unfold getProductDetails_try, classify.
  destruct (newURL P url) as [u|m]; simpl; [|reflexivity].
  repeat match goal with
    | |- context [includes (hostname u) ?sig] =>
        destruct (includes (hostname u) sig); simpl; try reflexivity
    end.
Qed.

Lemma getProductDetails_Descriptor (P : Platform) (url : string)
  (partNumber : option string) (d : ProductDescriptor) :
  getProductDetails P url partNumber = Normal (Descriptor d) ->
  exists u t, newURL P url = Normal u
              /\ classify (hostname u) = Some t
              /\ strategy t P url partNumber u = Normal d.
Proof.
  unfold getProductDetails. rewrite getProductDetails_try_dispatch.
  destruct (newURL P url) as [u|m] eqn:Hu; simpl; [|discriminate].
  destruct (classify (hostname u)) as [t|] eqn:Ht; [|discriminate].
  destruct (strategy t P url partNumber u) as [d'|m] eqn:E; [|discriminate].
  intros H. inversion H; subst. exists u, t. auto.
Qed.

Lemma getProductDetails_classified (P : Platform) (url : string)
  (partNumber : option string) (u : URL) (t : StoreType) :
  newURL P url = Normal u -> classify (hostname u) = Some t ->
  getProductDetails_try P url partNumber = strategy t P url partNumber u.
Proof.
  intros Hu Ht. rewrite getProductDetails_try_dispatch, Hu. simpl.
  now rewrite Ht.
Qed.

(** What every strategy guarantees of the descriptor it returns. *)
Lemma strategy_descriptor (t : StoreType) (P : Platform) (url : string)
  (partNumber0 : option string) (u : URL) (d : ProductDescriptor) :
  strategy t P url partNumber0 u = Normal d ->
  storeType d = t
  /\ productId d <> EmptyString
  /\ exists raw, name d = storeLabel t ++ plainName raw
                 \/ name d = storeLabel t ++ titleName raw.
Proof.
  destruct t; simpl;
    unfold amazonLogic, flipkartLogic, cromaLogic, appleLogic, vivoLogic,
      iqooLogic, relianceDigitalLogic;
    intros H; invert_bind; simpl;
    (split; [reflexivity | split; [assumption | eauto]]).
Qed.

(** ** Names *)

Lemma length_plainName_le (raw : string) : String.length (plainName raw) <= 53.
Proof.
  unfold plainName. rewrite length_append. simpl.
  pose proof (length_slice0_le 50 (replaceHyphens raw)). lia.
Qed.

Lemma length_titleName_le (raw : string) : String.length (titleName raw) <= 53.
Proof.
  unfold titleName. rewrite length_append. simpl.
  pose proof (length_slice0_le 50 (capitalizeWords (replaceHyphens raw))). lia.
Qed.

Lemma length_storeLabel_le (t : StoreType) : String.length (storeLabel t) <= 13.
Proof. destruct t; simpl; lia. Qed.

Lemma length_capitalizeWords (s : string) :
  String.length (capitalizeWords s) = String.length s.
Proof. apply length_capitalizeFrom. Qed.

Lemma long_name_truncated (raw : string) :
  50 < String.length raw ->
  String.length (slice0 (replaceHyphens raw) 50) = 50
  /\ plainName raw = slice0 (replaceHyphens raw) 50 ++ "..."
  /\ String.length (plainName raw) = 53
  /\ String.length (slice0 (capitalizeWords (replaceHyphens raw)) 50) = 50
  /\ titleName raw = slice0 (capitalizeWords (replaceHyphens raw)) 50 ++ "..."
  /\ String.length (titleName raw) = 53.
Proof.
  intros H.
  assert (H1 : String.length (slice0 (replaceHyphens raw) 50) = 50)
    by (apply length_slice0; rewrite length_replaceHyphens; lia).
  assert (H2 : String.length (slice0 (capitalizeWords (replaceHyphens raw)) 50)
               = 50)
    by (apply length_slice0;
        rewrite length_capitalizeWords, length_replaceHyphens; lia).
  unfold plainName, titleName. rewrite !length_append, H1, H2. simpl.
  repeat split; reflexivity.
Qed.

Lemma short_name_kept (raw : string) :
  String.length raw <= 50 ->
  plainName raw = replaceHyphens raw ++ "..."
  /\ titleName raw = capitalizeWords (replaceHyphens raw) ++ "...".
Proof.
  intros H. unfold plainName, titleName.
  rewrite !slice0_all; [split; reflexivity | |].
  - rewrite length_capitalizeWords, length_replaceHyphens; lia.
  - rewrite length_replaceHyphens; lia.
Qed.

Lemma descriptor_name (P : Platform) (url : string)
  (partNumber0 : option string) (d : ProductDescriptor) :
  getProductDetails P url partNumber0 = Normal (Descriptor d) ->
  productId d <> EmptyString
  /\ exists raw, name d = storeLabel (storeType d) ++ plainName raw
                 \/ name d = storeLabel (storeType d) ++ titleName raw.
Proof.
  intros H. apply getProductDetails_Descriptor in H.
  destruct H as (u & t & _ & _ & H).
  apply strategy_descriptor in H. destruct H as (-> & Hid & Hname). auto.
Qed.

(** ** Totality, identifiers and names *)

(** C1: for every URL and optional part number, [getProductDetails]
    completes normally, never by a throw, and returns exactly one of a
    descriptor and a failure: the descriptor computed by the [try] block
    when that block completes, and otherwise a failure carrying the
    message of the error the block threw, whether it comes from the URL
    constructor, from a strategy, or from the scraper finding no item
    code.  The scraper itself never throws. *)
Theorem getProductDetails_never_throws (P : Platform) (url : string)
  (partNumber0 : option string) :
  (exists r, getProductDetails P url partNumber0 = Normal r
     /\ ((exists d, r = Descriptor d
                    /\ getProductDetails_try P url partNumber0 = Normal d)
         \/ (exists message, r = Failure message
                    /\ getProductDetails_try P url partNumber0 = Throw message))
     /\ ~ ((exists d, r = Descriptor d) /\ (exists message, r = Failure message)))
  /\ (forall message, newURL P url = Throw message ->
        getProductDetails P url partNumber0 = Normal (Failure message))
  /\ (exists articleId, getRelianceDigitalArticleId P url = Normal articleId)
  /\ (forall u message, newURL P url = Normal u ->
        classify (hostname u) = Some reliance_digital ->
        getRelianceDigitalArticleId_try P url = Throw message ->
        getProductDetails P url partNumber0
        = Normal (Failure extractionMessage))
  /\ (forall u response, newURL P url = Normal u ->
        classify (hostname u) = Some reliance_digital ->
        fetch P url = Normal response -> ok response = false ->
        getProductDetails P url partNumber0
        = Normal (Failure extractionMessage)).
Proof.
  split; [| split; [| split; [| split]]].
  - unfold getProductDetails.
    destruct (getProductDetails_try P url partNumber0) as [d|m].
    + exists (Descriptor d). repeat split; [left; eauto |].
      intros [_ [m H]]. discriminate.
    + exists (Failure m). repeat split; [right; eauto |].
      intros [[d H] _]. discriminate.
  - intros m H. unfold getProductDetails, getProductDetails_try.
    now rewrite H.
  - unfold getRelianceDigitalArticleId.
    destruct (getRelianceDigitalArticleId_try P url); eauto.
  - intros u m Hu Ht Hs. unfold getProductDetails.
    rewrite (getProductDetails_classified P url partNumber0 u _ Hu Ht).
    simpl. unfold relianceDigitalLogic, getRelianceDigitalArticleId.
    now rewrite Hs.
  - intros u response Hu Ht Hf Hok. unfold getProductDetails.
    rewrite (getProductDetails_classified P url partNumber0 u _ Hu Ht).
    simpl. unfold relianceDigitalLogic, getRelianceDigitalArticleId,
      getRelianceDigitalArticleId_try.
    rewrite Hf. simpl. now rewrite Hok.
Qed.

(** C7: whenever [getProductDetails] returns a descriptor, whatever the
    strategy that built it, its [productId] is not the empty string. *)
Theorem productId_never_empty (P : Platform) (url : string)
  (partNumber0 : option string) (d : ProductDescriptor) :
  getProductDetails P url partNumber0 = Normal (Descriptor d) ->
  productId d <> EmptyString.
Proof. intros H. now apply descriptor_name in H. Qed.

Lemma productId_never_empty_witness :
  getProductDetails
    (urlPlatform "https://www.amazon.in/Some-Great-Item/dp/B0CX59H5W7"
       "www.amazon.in" "/Some-Great-Item/dp/B0CX59H5W7")
    "https://www.amazon.in/Some-Great-Item/dp/B0CX59H5W7" None
  = Normal (Descriptor {| name := "(Amazon) Some Great Item...";
                          productId := "B0CX59H5W7";
                          storeType := amazon;
                          partNumber := None |})
  /\ "B0CX59H5W7" <> EmptyString.
Proof.
  split; [reflexivity |].
  apply (productId_never_empty
           (urlPlatform "https://www.amazon.in/Some-Great-Item/dp/B0CX59H5W7"
              "www.amazon.in" "/Some-Great-Item/dp/B0CX59H5W7")
           "https://www.amazon.in/Some-Great-Item/dp/B0CX59H5W7" None
           {| name := "(Amazon) Some Great Item...";
              productId := "B0CX59H5W7";
              storeType := amazon;
              partNumber := None |}).
  reflexivity.
Defined.

(** C8: the name of every descriptor returned by [getProductDetails]
    ends with the three-dot marker; the marker is appended whether or
    not the raw name was cut: a raw name of at most 50 characters is
    kept whole and still followed by the marker. *)
Theorem name_ends_with_ellipsis (P : Platform) (url : string)
  (partNumber0 : option string) (d : ProductDescriptor) :
  getProductDetails P url partNumber0 = Normal (Descriptor d) ->
  (exists body, name d = body ++ "...")
  /\ (exists raw, name d = storeLabel (storeType d) ++ plainName raw
                  \/ name d = storeLabel (storeType d) ++ titleName raw)
  /\ (forall raw, String.length raw <= 50 ->
        plainName raw = replaceHyphens raw ++ "..."
        /\ titleName raw = capitalizeWords (replaceHyphens raw) ++ "...").
Proof.
  intros H. apply descriptor_name in H. destruct H as (_ & raw & H).
  split; [| split; [eauto | apply short_name_kept]].
  destruct H as [H|H]; rewrite H; unfold plainName, titleName;
    rewrite <- append_assoc; eauto.
Qed.

Lemma name_ends_with_ellipsis_witness :
  getProductDetails
    (urlPlatform "https://shop.vivo.com/in/product/10736"
       "shop.vivo.com" "/in/product/10736")
    "https://shop.vivo.com/in/product/10736" None
  = Normal (Descriptor {| name := "(Vivo) Vivo Product...";
                          productId := "10736";
                          storeType := vivo;
                          partNumber := None |})
  /\ exists body, "(Vivo) Vivo Product..." = body ++ "...".
Proof.
  split; [reflexivity |].
  exact (proj1 (name_ends_with_ellipsis
                  (urlPlatform "https://shop.vivo.com/in/product/10736"
                     "shop.vivo.com" "/in/product/10736")
                  "https://shop.vivo.com/in/product/10736" None
                  {| name := "(Vivo) Vivo Product...";
                     productId := "10736";
                     storeType := vivo;
                     partNumber := None |}
                  eq_refl)).
Defined.

(** C3, as stated, fails: with its label and its marker the name of a
    descriptor can be longer than 53 characters.  Here it has 62. *)
Lemma name_longer_than_53 :
  exists d,
    getProductDetails longAmazonPlatform longAmazonUrl None
    = Normal (Descriptor d)
    /\ String.length (name d) = 62
    /\ ~ String.length (name d) <= 53.
Proof.
  eexists. split; [reflexivity |]. simpl. split; [reflexivity | lia].
Qed.

(** C3, amended: a raw name longer than 50 characters is cut to exactly
    its first 50 characters (after the replacement of hyphens and, for
    Vivo, iQOO and Reliance Digital, the capitalization) followed by the
    three-dot marker, 53 characters in all; the name of every descriptor
    is the store label followed by such a text, so that its length is at
    most 53 plus the length of the label, and at most 66 whatever the
    input. *)
Theorem name_truncation_and_bound :
  (forall raw, 50 < String.length raw ->
     String.length (slice0 (replaceHyphens raw) 50) = 50
     /\ plainName raw = slice0 (replaceHyphens raw) 50 ++ "..."
     /\ String.length (plainName raw) = 53
     /\ String.length (slice0 (capitalizeWords (replaceHyphens raw)) 50) = 50
     /\ titleName raw = slice0 (capitalizeWords (replaceHyphens raw)) 50 ++ "..."
     /\ String.length (titleName raw) = 53)
  /\ (forall P url partNumber0 d,
        getProductDetails P url partNumber0 = Normal (Descriptor d) ->
        (exists raw, name d = storeLabel (storeType d) ++ plainName raw
                     \/ name d = storeLabel (storeType d) ++ titleName raw)
        /\ String.length (name d)
           <= String.length (storeLabel (storeType d)) + 53
        /\ String.length (name d) <= 66).
Proof.
  split; [exact long_name_truncated |].
  intros P url pn d H. apply descriptor_name in H.
  destruct H as (_ & raw & H). split; [eauto |].
  pose proof (length_storeLabel_le (storeType d)) as Hl.
  pose proof (length_plainName_le raw) as Hp.
  pose proof (length_titleName_le raw) as Ht.
  destruct H as [H|H]; rewrite H, length_append; lia.
Qed.

Lemma name_truncation_and_bound_witness :
  getProductDetails longAmazonPlatform longAmazonUrl None
  = Normal (Descriptor
              {| name := "(Amazon) Portable Bluetooth Speaker With Deep Bass And Long...";
                 productId := "B0CX59H5W7";
                 storeType := amazon;
                 partNumber := None |})
  /\ String.length
       "(Amazon) Portable Bluetooth Speaker With Deep Bass And Long..."
     <= 66.
Proof.
  split; [reflexivity |].
  exact (proj2 (proj2 (proj2 name_truncation_and_bound
                         longAmazonPlatform longAmazonUrl None
                         {| name := "(Amazon) Portable Bluetooth Speaker With Deep Bass And Long...";
                            productId := "B0CX59H5W7";
                            storeType := amazon;
                            partNumber := None |}
                         eq_refl))).
Defined.

(** ** Classification *)

Lemma classify_iqoo (host : string) :
  includes host "iqoo.com" = true -> classify host = Some iqoo.
Proof. intros H. unfold classify. rewrite H, andb_false_r. reflexivity. Qed.

Lemma classify_vivo (host : string) :
  classify host = Some vivo ->
  includes host "vivo.com" = true /\ includes host "iqoo.com" = false.
Proof.
  unfold classify.
  destruct (includes host "vivo.com"), (includes host "iqoo.com"); simpl;
    try (intros; split; reflexivity); try discriminate;
    repeat match goal with
      | |- context [includes host ?sig] => destruct (includes host sig)
      end; discriminate.
Qed.

(** C6: when the host of the URL contains [iqoo.com], the Vivo strategy
    is not selected, even if the host also contains [vivo.com]: the
    classifier selects iQOO, the resolver runs the iQOO strategy, and a
    descriptor it returns has the store type [iqoo], never [vivo]. *)
Theorem iqoo_never_vivo (P : Platform) (url : string)
  (partNumber0 : option string) (u : URL) :
  newURL P url = Normal u ->
  includes (hostname u) "iqoo.com" = true ->
  classify (hostname u) = Some iqoo
  /\ classify (hostname u) <> Some vivo
  /\ getProductDetails_try P url partNumber0 = iqooLogic P u
  /\ (forall d, getProductDetails P url partNumber0 = Normal (Descriptor d) ->
        storeType d = iqoo /\ storeTypeString (storeType d) <> "vivo").
Proof.
  intros Hu Hi. pose proof (classify_iqoo _ Hi) as Hc.
  split; [exact Hc |]. split; [congruence |].
  split; [exact (getProductDetails_classified P url partNumber0 u iqoo Hu Hc) |].
  intros d H. apply getProductDetails_Descriptor in H.
  destruct H as (u' & t & Hu' & Ht & H).
  assert (u' = u) by congruence. subst u'.
  assert (t = iqoo) by congruence. subst t.
  apply strategy_descriptor in H. destruct H as (-> & _).
  split; [reflexivity | discriminate].
Qed.

Lemma iqoo_never_vivo_witness :
  newURL (urlPlatform "https://vivo.com.iqoo.com/in/product/2057"
            "vivo.com.iqoo.com" "/in/product/2057")
    "https://vivo.com.iqoo.com/in/product/2057"
  = Normal {| hostname := "vivo.com.iqoo.com";
              pathname := "/in/product/2057";
              searchParams := [] |}
  /\ includes "vivo.com.iqoo.com" "iqoo.com" = true
  /\ includes "vivo.com.iqoo.com" "vivo.com" = true
  /\ getProductDetails_try
       (urlPlatform "https://vivo.com.iqoo.com/in/product/2057"
          "vivo.com.iqoo.com" "/in/product/2057")
       "https://vivo.com.iqoo.com/in/product/2057" None
     = Normal {| name := "(iQOO) IQOO Product...";
                 productId := "2057";
                 storeType := iqoo;
                 partNumber := None |}.
Proof.
  split; [reflexivity |]. split; [reflexivity |]. split; [reflexivity |].
  rewrite (proj1 (proj2 (proj2 (iqoo_never_vivo
             (urlPlatform "https://vivo.com.iqoo.com/in/product/2057"
                "vivo.com.iqoo.com" "/in/product/2057")
             "https://vivo.com.iqoo.com/in/product/2057" None
             {| hostname := "vivo.com.iqoo.com";
                pathname := "/in/product/2057";
                searchParams := [] |}
             eq_refl eq_refl)))).
  reflexivity.
Defined.

(** ** Arrays of path segments *)

Section Arrays.

Lemma len_nonneg {A : Type} (a : list A) : (0 <= len a)%Z.
Proof. unfold len. lia. Qed.

Lemma len_cons {A : Type} (x : A) (a : list A) :
  len (x :: a) = (len a + 1)%Z.
Proof. unfold len. simpl List.length. lia. Qed.

Lemma len_app {A : Type} (a b : list A) :
  len (a ++ b)%list = (len a + len b)%Z.
Proof. unfold len. rewrite length_app. lia. Qed.

Lemma item_app_right {A : Type} (pre a : list A) (k : Z) :
  (0 <= k)%Z -> item (pre ++ a)%list (len pre + k) = item a k.
Proof.
  intros Hk. unfold item, len.
  destruct (Z.ltb_spec (Z.of_nat (List.length pre) + k) 0); [lia|].
  destruct (Z.ltb_spec k 0); [lia|].
  rewrite nth_error_app2 by lia. f_equal. lia.
Qed.

Lemma item_before (pre a : list string) :
  item (pre ++ a)%list (len pre - 1) = lastOf pre.
Proof.
  induction pre as [|x pre IH]; [reflexivity|].
  destruct pre as [|y pre].
  - reflexivity.
  - change (lastOf (x :: y :: pre)) with (lastOf (y :: pre)).
    rewrite <- IH. rewrite !len_cons. unfold item.
    pose proof (len_nonneg pre).
    destruct (Z.ltb_spec (len pre + 1 + 1 - 1) 0); [lia|].
    destruct (Z.ltb_spec (len pre + 1 - 1) 0); [lia|].
    replace (Z.to_nat (len pre + 1 + 1 - 1))
      with (S (Z.to_nat (len pre + 1 - 1))) by lia.
    reflexivity.
Qed.

Lemma indexOf_spec (a : list string) (x : string) :
  (indexOf a x = (-1)%Z /\ ~ In x a)
  \/ (exists pre post, a = (pre ++ x :: post)%list /\ ~ In x pre
                       /\ indexOf a x = len pre).
Proof.
  induction a as [|y a IH]; simpl.
  - left. auto.
  - destruct (String.eqb_spec y x) as [->|Hne].
    + right. exists [], a. auto.
    + destruct IH as [[Hi Hn]|(pre & post & -> & Hn & Hi)].
      * left. rewrite Hi. simpl. split; [reflexivity | tauto].
      * right. exists (y :: pre), post. rewrite Hi.
        pose proof (len_nonneg pre).
        destruct (Z.ltb_spec (len pre) 0); [lia|].
        rewrite len_cons. simpl. repeat split; try reflexivity.
        intros [H1|H1]; [congruence | tauto].
Qed.

Lemma indexOf_first (pre post : list string) (x : string) :
  ~ In x pre -> indexOf (pre ++ x :: post)%list x = len pre.
Proof.
  induction pre as [|y pre IH]; simpl; intros Hn.
  - now rewrite String.eqb_refl.
  - destruct (String.eqb_spec y x) as [->|Hne]; [tauto|].
    rewrite IH by tauto. pose proof (len_nonneg pre).
    destruct (Z.ltb_spec (len pre) 0); [lia|]. now rewrite len_cons.
Qed.

End Arrays.

(** ** Amazon *)

Lemma amazonLogic_found (u : URL) (pre post : list string) (asin : string) :
  split (pathname u) "/" = (pre ++ "dp" :: asin :: post)%list ->
  ~ In "dp" pre -> asin <> EmptyString ->
  amazonLogic u = Normal (amazonDescriptor pre asin).
Proof.
  intros Hs Hn Ha. unfold amazonLogic. rewrite Hs.
  rewrite indexOf_first by assumption.
  pose proof (len_nonneg pre).
  destruct (Z.eqb_spec (len pre) (-1)); [lia|].
  rewrite item_app_right by lia. rewrite item_before.
  change (item ("dp" :: asin :: post) 1) with (Some asin).
  rewrite throwIfNot_truthy by assumption. reflexivity.
Qed.

Lemma amazonLogic_cases (u : URL) :
  amazonLogic u = Throw amazonMessage
  \/ exists pre asin post,
       split (pathname u) "/" = (pre ++ "dp" :: asin :: post)%list
       /\ ~ In "dp" pre /\ asin <> EmptyString.
Proof.
  unfold amazonLogic.
  destruct (indexOf_spec (split (pathname u) "/") "dp")
    as [[Hi _]|(pre & post & Hs & Hn & Hi)].
  - rewrite Hi. now left.
  - rewrite Hi. pose proof (len_nonneg pre).
    destruct (Z.eqb_spec (len pre) (-1)); [lia|].
    rewrite Hs. rewrite item_app_right by lia.
    destruct post as [|asin post]; [now left|].
    change (item ("dp" :: asin :: post) 1) with (Some asin).
    destruct asin as [|c t]; [now left|].
    right. exists pre, (String c t), post. repeat split; congruence.
Qed.

Lemma lastOf_snoc (a : list string) (x : string) :
  lastOf (a ++ [x])%list = Some x.
Proof.
  induction a as [|y a IH]; [reflexivity|].
  change ((y :: a) ++ [x])%list with (y :: (a ++ [x]))%list.
  destruct (a ++ [x])%list as [|z r] eqn:E; [now destruct a | exact IH].
Qed.

Lemma classify_amazon (host : string) :
  includes host "vivo.com" = false -> includes host "iqoo.com" = false ->
  includes host "reliancedigital.in" = false ->
  includes host "flipkart.com" = false ->
  includes host "amazon.in" = true ->
  classify host = Some amazon.
Proof.
  intros H1 H2 H3 H4 H5. unfold classify.
  now rewrite H1, H2, H3, H4, H5.
Qed.

(** C5, as stated, fails twice.  On [www.amazon.in] the path
    [/dp//dp/B0CX59H5W7] has a segment [dp] followed by a non-empty
    segment, yet resolution fails, because the first [dp] is followed by
    an empty segment.  The host [amazon.in.flipkart.com] contains the
    Amazon substring and the path has [dp] followed by an identifier,
    yet the URL goes to the Flipkart block and fails there. *)
Lemma amazon_any_dp_fails :
  (includes "www.amazon.in" "amazon.in" = true
   /\ split "/dp//dp/B0CX59H5W7" "/"
      = ([EmptyString; "dp"; EmptyString] ++ "dp" :: "B0CX59H5W7" :: [])%list
   /\ "B0CX59H5W7" <> EmptyString
   /\ getProductDetails
        (urlPlatform "https://www.amazon.in/dp//dp/B0CX59H5W7"
           "www.amazon.in" "/dp//dp/B0CX59H5W7")
        "https://www.amazon.in/dp//dp/B0CX59H5W7" None
      = Normal (Failure amazonMessage))
  /\ (includes "amazon.in.flipkart.com" "amazon.in" = true
      /\ split "/Some-Great-Item/dp/B0CX59H5W7" "/"
         = ([EmptyString; "Some-Great-Item"] ++ "dp" :: "B0CX59H5W7" :: [])%list
      /\ getProductDetails
           (urlPlatform
              "https://amazon.in.flipkart.com/Some-Great-Item/dp/B0CX59H5W7"
              "amazon.in.flipkart.com" "/Some-Great-Item/dp/B0CX59H5W7")
           "https://amazon.in.flipkart.com/Some-Great-Item/dp/B0CX59H5W7" None
         = Normal (Failure flipkartMessage))
  /\ ~ (forall P url partNumber0 u,
          newURL P url = Normal u ->
          includes (hostname u) "amazon.in" = true ->
          ((exists d, getProductDetails P url partNumber0
                      = Normal (Descriptor d))
           <-> (exists pre asin post,
                  split (pathname u) "/" = (pre ++ "dp" :: asin :: post)%list
                  /\ asin <> EmptyString))).
Proof.
  split; [repeat split; try reflexivity; discriminate |].
  split; [repeat split; reflexivity |].
  intros H.
  specialize (H (urlPlatform "https://www.amazon.in/dp//dp/B0CX59H5W7"
                   "www.amazon.in" "/dp//dp/B0CX59H5W7")
                "https://www.amazon.in/dp//dp/B0CX59H5W7" None
                {| hostname := "www.amazon.in";
                   pathname := "/dp//dp/B0CX59H5W7";
                   searchParams := [] |}
                eq_refl eq_refl).
  destruct H as [_ H]. destruct H as [d Hd].
  - exists [EmptyString; "dp"; EmptyString], "B0CX59H5W7", [].
    split; [reflexivity | discriminate].
  - discriminate.
Qed.

(** C5, amended: for a URL whose host contains [amazon.in] and none of
    the substrings tested before it ([vivo.com], [iqoo.com],
    [reliancedigital.in], [flipkart.com]), resolution returns a
    descriptor if and only if the path has a segment [dp] and the first
    such segment is followed by a non-empty segment, and fails with the
    ASIN message otherwise.  The [productId] is then the segment that
    follows that first [dp] and the store type is [amazon]; the name is
    built from the segment just before that [dp] when it is not empty,
    and from [Amazon Product] when it is empty or when [dp] is the first
    segment.  The URL
    https://www.amazon.in/Some-Great-Item/dp/B0CX59H5W7 gives the
    identifier B0CX59H5W7 and a name containing [Some Great Item]. *)
Theorem amazon_first_dp_segment (P : Platform) (url : string)
  (partNumber0 : option string) (u : URL) :
  newURL P url = Normal u ->
  includes (hostname u) "vivo.com" = false ->
  includes (hostname u) "iqoo.com" = false ->
  includes (hostname u) "reliancedigital.in" = false ->
  includes (hostname u) "flipkart.com" = false ->
  includes (hostname u) "amazon.in" = true ->
  ((exists d, getProductDetails P url partNumber0 = Normal (Descriptor d))
   <-> (exists pre asin post,
          split (pathname u) "/" = (pre ++ "dp" :: asin :: post)%list
          /\ ~ In "dp" pre /\ asin <> EmptyString))
  /\ (forall pre prev asin post,
        split (pathname u) "/"
        = ((pre ++ [prev]) ++ "dp" :: asin :: post)%list ->
        ~ In "dp" (pre ++ [prev])%list ->
        prev <> EmptyString -> asin <> EmptyString ->
        getProductDetails P url partNumber0
        = Normal (Descriptor
                    {| name := "(Amazon) "
                               ++ slice0 (replaceHyphens prev) 50 ++ "...";
                       productId := asin;
                       storeType := amazon;
                       partNumber := None |}))
  /\ (forall pre asin post,
        split (pathname u) "/" = (pre ++ "dp" :: asin :: post)%list ->
        ~ In "dp" pre -> asin <> EmptyString ->
        pre = [] \/ lastOf pre = Some EmptyString ->
        getProductDetails P url partNumber0
        = Normal (Descriptor
                    {| name := "(Amazon) Amazon Product...";
                       productId := asin;
                       storeType := amazon;
                       partNumber := None |}))
  /\ ((exists d, getProductDetails P url partNumber0 = Normal (Descriptor d))
      \/ getProductDetails P url partNumber0 = Normal (Failure amazonMessage))
  /\ (pathname u = "/Some-Great-Item/dp/B0CX59H5W7" ->
      exists d, getProductDetails P url partNumber0 = Normal (Descriptor d)
                /\ productId d = "B0CX59H5W7"
                /\ storeType d = amazon
                /\ name d = "(Amazon) Some Great Item..."
                /\ includes (name d) "Some Great Item" = true).
Proof.
  intros Hu H1 H2 H3 H4 H5.
  pose proof (classify_amazon _ H1 H2 H3 H4 H5) as Ht.
  assert (Hrun : getProductDetails P url partNumber0
                 = match amazonLogic u with
                   | Normal d => Normal (Descriptor d)
                   | Throw m => Normal (Failure m)
                   end).
  { unfold getProductDetails.
    now rewrite (getProductDetails_classified P url partNumber0 u _ Hu Ht). }
  assert (Hfound : forall pre asin post,
             split (pathname u) "/" = (pre ++ "dp" :: asin :: post)%list ->
             ~ In "dp" pre -> asin <> EmptyString ->
             getProductDetails P url partNumber0
             = Normal (Descriptor (amazonDescriptor pre asin))).
  { intros pre asin post Hs Hn Ha.
    now rewrite Hrun, (amazonLogic_found u pre post asin Hs Hn Ha). }
  split; [| split; [| split; [| split]]].
  - split.
    + intros [d Hd]. destruct (amazonLogic_cases u) as [Hthrow|Hex].
      * rewrite Hrun, Hthrow in Hd. discriminate.
      * exact Hex.
    + intros (pre & asin & post & Hs & Hn & Ha). eauto.
  - intros pre prev asin post Hs Hn Hp Ha.
    rewrite (Hfound _ _ _ Hs Hn Ha). unfold amazonDescriptor.
    rewrite lastOf_snoc. destruct prev; [congruence | reflexivity].
  - intros pre asin post Hs Hn Ha Hd.
    rewrite (Hfound _ _ _ Hs Hn Ha). unfold amazonDescriptor.
    destruct Hd as [-> | ->]; reflexivity.
  - destruct (amazonLogic_cases u) as [Hthrow|(pre & asin & post & Hs & Hn & Ha)].
    + right. now rewrite Hrun, Hthrow.
    + left. eauto.
  - intros Hp. eexists. split.
    + apply (Hfound [EmptyString; "Some-Great-Item"] "B0CX59H5W7" []).
      * rewrite Hp. reflexivity.
      * simpl. intros [H|[H|[]]]; discriminate.
      * discriminate.
    + repeat split; reflexivity.
Qed.

Lemma amazon_first_dp_segment_witness :
  (newURL
     (urlPlatform "https://www.amazon.in/Some-Great-Item/dp/B0CX59H5W7"
        "www.amazon.in" "/Some-Great-Item/dp/B0CX59H5W7")
     "https://www.amazon.in/Some-Great-Item/dp/B0CX59H5W7"
   = Normal {| hostname := "www.amazon.in";
               pathname := "/Some-Great-Item/dp/B0CX59H5W7";
               searchParams := [] |}
   /\ includes "www.amazon.in" "amazon.in" = true
   /\ getProductDetails
        (urlPlatform "https://www.amazon.in/Some-Great-Item/dp/B0CX59H5W7"
           "www.amazon.in" "/Some-Great-Item/dp/B0CX59H5W7")
        "https://www.amazon.in/Some-Great-Item/dp/B0CX59H5W7" None
      = Normal (Descriptor {| name := "(Amazon) Some Great Item...";
                              productId := "B0CX59H5W7";
                              storeType := amazon;
                              partNumber := None |}))
  /\ (split "/dp/B0CX59H5W7" "/"
      = ([EmptyString] ++ "dp" :: "B0CX59H5W7" :: [])%list
      /\ lastOf [EmptyString] = Some EmptyString
      /\ getProductDetails
           (urlPlatform "https://www.amazon.in/dp/B0CX59H5W7"
              "www.amazon.in" "/dp/B0CX59H5W7")
           "https://www.amazon.in/dp/B0CX59H5W7" None
         = Normal (Descriptor {| name := "(Amazon) Amazon Product...";
                                 productId := "B0CX59H5W7";
                                 storeType := amazon;
                                 partNumber := None |})).
Proof.
  split.
  - split; [reflexivity |]. split; [reflexivity |].
    refine (proj1 (proj2 (amazon_first_dp_segment
              (urlPlatform "https://www.amazon.in/Some-Great-Item/dp/B0CX59H5W7"
                 "www.amazon.in" "/Some-Great-Item/dp/B0CX59H5W7")
              "https://www.amazon.in/Some-Great-Item/dp/B0CX59H5W7" None
              {| hostname := "www.amazon.in";
                 pathname := "/Some-Great-Item/dp/B0CX59H5W7";
                 searchParams := [] |}
              eq_refl eq_refl eq_refl eq_refl eq_refl eq_refl))
              [EmptyString] "Some-Great-Item" "B0CX59H5W7" []
              eq_refl _ _ _).
    + simpl. intros [H|[H|[]]]; discriminate.
    + discriminate.
    + discriminate.
  - split; [reflexivity |]. split; [reflexivity |].
    refine (proj1 (proj2 (proj2 (amazon_first_dp_segment
              (urlPlatform "https://www.amazon.in/dp/B0CX59H5W7"
                 "www.amazon.in" "/dp/B0CX59H5W7")
              "https://www.amazon.in/dp/B0CX59H5W7" None
              {| hostname := "www.amazon.in";
                 pathname := "/dp/B0CX59H5W7";
                 searchParams := [] |}
              eq_refl eq_refl eq_refl eq_refl eq_refl eq_refl)))
              [EmptyString] "B0CX59H5W7" [] eq_refl _ _ (or_intror eq_refl)).
    + simpl. intros [H|[]]; discriminate.
    + discriminate.
Defined.

Example amazon_first_dp_decides :
  getProductDetails
    (urlPlatform "https://www.amazon.in/dp//dp/B0CX59H5W7"
       "www.amazon.in" "/dp//dp/B0CX59H5W7")
    "https://www.amazon.in/dp//dp/B0CX59H5W7" None
  = Normal (Failure amazonMessage).
Proof. reflexivity. Qed.

(** ** Croma *)

Lemma item_last (a : list string) : item a (len a - 1) = lastOf a.
Proof. rewrite <- (item_before a []). now rewrite app_nil_r. Qed.

Lemma lastOf_filter (f : string -> bool) (x : string) (a : list string) :
  lastOf a = Some x -> f x = true -> lastOf (filter f a) = Some x.
Proof.
  intros Hl Hf. induction a as [|y a IH]; [discriminate|].
  destruct a as [|z a].
  - simpl in *. inversion Hl; subst. now rewrite Hf.
  - change (lastOf (y :: z :: a)) with (lastOf (z :: a)) in Hl.
    specialize (IH Hl). change (filter f (y :: z :: a))
      with (if f y then y :: filter f (z :: a) else filter f (z :: a)).
    destruct (f y); [|exact IH].
    destruct (filter f (z :: a)) as [|w r]; [discriminate | exact IH].
Qed.

(** When the Croma block succeeds, the identifier is the last non-empty
    path segment and is numeric. *)
Lemma cromaLogic_sound (u : URL) (d : ProductDescriptor) :
  cromaLogic u = Normal d ->
  lastOf (split (pathname u) "/") = Some (productId d)
  /\ lastOf (pathPartsNonEmpty u) = Some (productId d)
  /\ allDigits (productId d) = true
  /\ name d = "(Croma) "
              ++ plainName (orDefault (item (split (pathname u) "/") 1)
                                      "Croma Product").
Proof.
  unfold cromaLogic. rewrite item_last. intros H. invert_bind. simpl.
  match goal with
  | H : negb (allDigits ?p) = false |- _ =>
      apply negb_false_iff in H; rename H into Hd
  end.
  repeat split; try assumption.
  apply lastOf_filter; [assumption|].
  destruct a; [congruence | reflexivity].
Qed.

(** The Croma block succeeds exactly when the last segment of the split
    path, empty after a trailing slash, is numeric. *)
Lemma cromaLogic_succeeds (u : URL) :
  (exists d, cromaLogic u = Normal d)
  <-> (exists pid, lastOf (split (pathname u) "/") = Some pid
                   /\ allDigits pid = true).
Proof.
  split.
  - intros [d H]. apply cromaLogic_sound in H. exists (productId d). tauto.
  - intros (pid & Hl & Hd). unfold cromaLogic. rewrite item_last, Hl.
    rewrite throwIfNot_truthy by (destruct pid; [discriminate | congruence]).
    simpl. rewrite Hd. simpl. eauto.
Qed.

(** C2 at a URL with a trailing slash: the last non-empty path segment
    is 123456, which is numeric, and the form component extracts it, but
    [getProductDetails] reads the empty segment after the slash and
    fails. *)
Theorem croma_trailing_slash_rejected :
  newURL cromaSlashPlatform cromaSlashUrl
  = Normal {| hostname := "www.croma.com";
              pathname := "/some-phone/p/123456/";
              searchParams := [] |}
  /\ classify "www.croma.com" = Some croma
  /\ lastOf (filter (fun p => (0 <? String.length p)%nat)
               (split "/some-phone/p/123456/" "/")) = Some "123456"
  /\ allDigits "123456" = true
  /\ extractCromaProductId cromaSlashPlatform cromaSlashUrl = Some "123456"
  /\ getProductDetails cromaSlashPlatform cromaSlashUrl None
     = Normal (Failure cromaMessage)
  /\ getProductDetails
       (urlPlatform "https://www.croma.com/some-phone/p/123456"
          "www.croma.com" "/some-phone/p/123456")
       "https://www.croma.com/some-phone/p/123456" None
     = Normal (Descriptor {| name := "(Croma) some phone...";
                             productId := "123456";
                             storeType := croma;
                             partNumber := None |}).
Proof. repeat split; reflexivity. Qed.

(** ** Reliance Digital *)

Lemma eachSpecification_first (before after : list SpecificationsListItem)
  (r : SpecificationsListItem) (articleId : option string) :
  (forall b, In b before -> ~ isItemCode b) -> isItemCode r ->
  eachSpecification (before ++ r :: after)%list articleId
  = Some (trim (rightUlText r)).
Proof.
  unfold isItemCode. intros Hb Hr.
  induction before as [|b before IH]; simpl.
  - now rewrite Hr.
  - destruct (String.eqb_spec (trim (spanFirstChildText b)) "Item Code") as [E|_].
    + exfalso. apply (Hb b); [now left | exact E].
    + apply IH. intros b' Hin. apply Hb. now right.
Qed.

Lemma eachSpecification_none (els : list SpecificationsListItem)
  (articleId : option string) :
  (forall b, In b els -> ~ isItemCode b) ->
  eachSpecification els articleId = articleId.
Proof.
  unfold isItemCode. intros Hb. induction els as [|b els IH]; simpl.
  - reflexivity.
  - destruct (String.eqb_spec (trim (spanFirstChildText b)) "Item Code") as [E|_].
    + exfalso. apply (Hb b); [now left | exact E].
    + apply IH. intros b' Hin. apply Hb. now right.
Qed.

Lemma slice0_append (d rest : string) :
  slice0 (d ++ rest) (String.length d) = d.
Proof. induction d as [|c d IH]; simpl; [now destruct rest | now rewrite IH]. Qed.

Lemma sliceFrom_append (d rest : string) :
  sliceFrom (d ++ rest) (String.length d) = rest.
Proof. induction d as [|c d IH]; simpl; [now destruct rest | exact IH]. Qed.

(** A match of [/-(\d{9})-i-1/] captures nine digits that stand between
    a hyphen and [-i-1]. *)
Lemma matchItemCode_sound (s d : string) :
  matchItemCode s = Some d ->
  String.length d = 9 /\ all isDigit d = true
  /\ exists pre post, s = pre ++ "-" ++ d ++ "-i-1" ++ post.
Proof.
  induction s as [|c t IH]; cbn [matchItemCode]; [discriminate|].
  destruct (Ascii.eqb c "-"
            && (String.length (slice0 t 9) =? 9)%nat
            && all isDigit (slice0 t 9)
            && prefix "-i-1" (sliceFrom t 9)) eqn:E.
  - intros H. inversion H; subst. clear H.
    apply andb_prop in E. destruct E as [E Hp].
    apply andb_prop in E. destruct E as [E Hd].
    apply andb_prop in E. destruct E as [Hc Hl].
    apply Ascii.eqb_eq in Hc. apply Nat.eqb_eq in Hl. subst c.
    split; [exact Hl | split; [exact Hd |]].
    apply prefix_split in Hp. destruct Hp as [post Hp].
    exists EmptyString, post. rewrite <- Hp.
    change (EmptyString ++ "-" ++ slice0 t 9 ++ sliceFrom t 9)
      with (String "-" (slice0 t 9 ++ sliceFrom t 9)).
    now rewrite slice0_sliceFrom.
  - intros H. destruct (IH H) as (Hl & Hd & pre & post & ->).
    split; [exact Hl | split; [exact Hd |]].
    now exists (String c pre), post.
Qed.

(** The pattern matches as soon as the text has such an occurrence. *)
Lemma matchItemCode_complete (pre d post : string) :
  String.length d = 9 -> all isDigit d = true ->
  exists d', matchItemCode (pre ++ "-" ++ d ++ "-i-1" ++ post) = Some d'.
Proof.
  intros Hl Hd. induction pre as [|c pre IH].
  - exists d. change (EmptyString ++ "-" ++ d ++ "-i-1" ++ post)
      with (String "-" (d ++ "-i-1" ++ post)).
    cbn [matchItemCode].
    assert (E1 : slice0 (d ++ "-i-1" ++ post) 9 = d)
      by (rewrite <- Hl; apply slice0_append).
    assert (E2 : sliceFrom (d ++ "-i-1" ++ post) 9 = "-i-1" ++ post)
      by (rewrite <- Hl; apply sliceFrom_append).
    rewrite E1, E2, Hl, Hd, prefix_append. reflexivity.
  - change (String c pre ++ "-" ++ d ++ "-i-1" ++ post)
      with (String c (pre ++ "-" ++ d ++ "-i-1" ++ post)).
    cbn [matchItemCode].
    destruct (_ && _); [eauto | exact IH].
Qed.

Lemma scraper_success (P : Platform) (url html : string)
  (response : Response) (doc : Document) :
  fetch P url = Normal response -> ok response = true ->
  text response = Normal html -> cheerioLoad P html = Normal doc ->
  getRelianceDigitalArticleId P url = Normal (extractArticleId doc).
Proof.
  intros Hf Hok Ht Hc.
  unfold getRelianceDigitalArticleId, getRelianceDigitalArticleId_try.
  rewrite Hf. simpl. rewrite Hok. simpl. rewrite Ht. simpl. now rewrite Hc.
Qed.

Lemma scraper_http_error (P : Platform) (url : string) (response : Response) :
  fetch P url = Normal response -> ok response = false ->
  getRelianceDigitalArticleId P url = Normal None.
Proof.
  intros Hf Hok.
  unfold getRelianceDigitalArticleId, getRelianceDigitalArticleId_try.
  rewrite Hf. simpl. now rewrite Hok.
Qed.

Lemma reliance_scraped (P : Platform) (url : string)
  (partNumber0 : option string) (u : URL) (articleId : option string) :
  newURL P url = Normal u ->
  classify (hostname u) = Some reliance_digital ->
  getRelianceDigitalArticleId P url = Normal articleId ->
  (falsy articleId = true ->
   getProductDetails P url partNumber0 = Normal (Failure extractionMessage))
  /\ (forall d, getProductDetails P url partNumber0 = Normal (Descriptor d) ->
        articleId = Some (productId d)).
Proof.
  intros Hu Ht Hs. unfold getProductDetails.
  rewrite (getProductDetails_classified P url partNumber0 u _ Hu Ht).
  simpl. unfold relianceDigitalLogic. rewrite Hs. simpl. split.
  - intros Hf. now rewrite (throwIfNot_falsy _ _ Hf).
  - intros d H.
    destruct (throwIfNot articleId _) as [id|m] eqn:E; [|discriminate].
    apply throwIfNot_Normal in E. destruct E as [-> _]. simpl in H.
    destruct (method P "replace" _); simpl in H; [|discriminate].
    now inversion H.
Qed.

Lemma fallbackTier_skipped (doc : Document) (articleId : option string) :
  falsy articleId = false -> fallbackTier doc articleId = articleId.
Proof. intros H. unfold fallbackTier. now rewrite H. Qed.

Lemma fallbackTier_match (doc : Document) (articleId : option string)
  (content d : string) :
  falsy articleId = true -> ogImageContent doc = Some content ->
  matchItemCode content = Some d -> fallbackTier doc articleId = Some d.
Proof.
  intros Hf Ho Hm. unfold fallbackTier. rewrite Hf, Ho.
  destruct content as [|c t]; [discriminate|]. simpl truthy. cbv iota.
  now rewrite Hm.
Qed.

Lemma fallbackTier_no_match (doc : Document) (articleId : option string) :
  (forall content, ogImageContent doc = Some content ->
                   matchItemCode content = None) ->
  fallbackTier doc articleId = articleId.
Proof.
  intros Hn. unfold fallbackTier.
  destruct (falsy articleId); [|reflexivity].
  destruct (ogImageContent doc) as [content|]; [|reflexivity].
  rewrite (Hn content eq_refl). now destruct (truthy content).
Qed.

(** ** Trimming *)

Lemma trimStart_white (lead s : string) :
  all isWhiteSpace lead = true -> trimStart (lead ++ s) = trimStart s.
Proof.
  induction lead as [|c lead IH]; [reflexivity|].
  cbn [all append trimStart]. intros H. apply andb_prop in H.
  destruct H as [H1 H2]. rewrite H1. now apply IH.
Qed.

Lemma trimStart_all_white (s : string) :
  all isWhiteSpace s = true -> trimStart s = EmptyString.
Proof.
  induction s as [|c s IH]; [reflexivity|].
  cbn [all trimStart]. intros H. apply andb_prop in H.
  destruct H as [H1 H2]. rewrite H1. now apply IH.
Qed.

Lemma trimEnd_all_white (s : string) :
  all isWhiteSpace s = true -> trimEnd s = EmptyString.
Proof.
  induction s as [|c s IH]; [reflexivity|].
  cbn [all trimEnd]. intros H. apply andb_prop in H.
  destruct H as [H1 H2]. now rewrite (IH H2), H1.
Qed.

Lemma trimEnd_white (core trail : string) :
  core <> EmptyString -> lastIsWhite core = false ->
  all isWhiteSpace trail = true -> trimEnd (core ++ trail) = core.
Proof.
  intros Hne Hl Ht. induction core as [|c core IH]; [congruence|].
  cbn [append trimEnd]. destruct core as [|c' core].
  - cbn [append]. rewrite (trimEnd_all_white _ Ht).
    cbn [lastIsWhite] in Hl. now rewrite Hl.
  - rewrite IH; [reflexivity | discriminate | exact Hl].
Qed.

(** [trim] removes the white space around a text that neither starts
    nor ends with white space, and nothing else. *)
Lemma trim_spec (lead core trail : string) :
  all isWhiteSpace lead = true -> all isWhiteSpace trail = true ->
  firstIsWhite core = false -> lastIsWhite core = false ->
  trim (lead ++ core ++ trail) = core.
Proof.
  intros Hl Ht Hf Hla. unfold trim. rewrite (trimStart_white _ _ Hl).
  destruct core as [|c core].
  - cbn [append]. now rewrite (trimStart_all_white _ Ht).
  - cbn [firstIsWhite] in Hf. cbn [append trimStart]. rewrite Hf.
    change (String c (core ++ trail)) with (String c core ++ trail).
    apply trimEnd_white; [discriminate | exact Hla | exact Ht].
Qed.

(** C4: on a successful fetch the scraper returns what the two tiers
    extract from the loaded document, the structured tier first.  The
    structured tier stops at the first specification row whose label,
    once trimmed, equals [Item Code] and takes the trimmed text of its
    nested list; rows after it are not read, and without such a row the
    tier yields nothing.  When that value is not empty it is the result
    and the [og:image] content is not consulted.  Only when the
    structured tier yields nothing is the [og:image] content matched
    against the pattern, which captures nine digits standing between a
    hyphen and [-i-1] and matches whenever the content has such an
    occurrence, so that [.../foo-300012345-i-1-202.jpg] gives
    [300012345].  When neither tier yields a value the result is falsy
    and [getProductDetails] fails with the extraction message; when it
    returns a descriptor, the [productId] is the extracted value.
    Trimming is the removal of the white space around a text: a row is
    the item-code row exactly when its label, without the white space
    around it, is [Item Code], and the value taken is the text of the
    nested list without the white space around it. *)
Theorem reliance_two_tiers (P : Platform) (url html : string)
  (response : Response) (doc : Document) :
  fetch P url = Normal response -> ok response = true ->
  text response = Normal html -> cheerioLoad P html = Normal doc ->
  getRelianceDigitalArticleId P url = Normal (extractArticleId doc)
  /\ (forall before r after,
        specificationsList doc = (before ++ r :: after)%list ->
        (forall b, In b before -> ~ isItemCode b) -> isItemCode r ->
        structuredTier doc = Some (trim (rightUlText r))
        /\ (trim (rightUlText r) <> EmptyString ->
            extractArticleId doc = Some (trim (rightUlText r))))
  /\ ((forall b, In b (specificationsList doc) -> ~ isItemCode b) ->
      structuredTier doc = None)
  /\ (falsy (structuredTier doc) = false ->
      extractArticleId doc = structuredTier doc)
  /\ (falsy (structuredTier doc) = true ->
      forall content d,
        ogImageContent doc = Some content ->
        matchItemCode content = Some d ->
        extractArticleId doc = Some d)
  /\ (forall content d,
        matchItemCode content = Some d ->
        String.length d = 9 /\ all isDigit d = true
        /\ exists pre post, content = pre ++ "-" ++ d ++ "-i-1" ++ post)
  /\ (forall pre d post,
        String.length d = 9 -> all isDigit d = true ->
        exists d', matchItemCode (pre ++ "-" ++ d ++ "-i-1" ++ post) = Some d')
  /\ matchItemCode ".../foo-300012345-i-1-202.jpg" = Some "300012345"
  /\ (falsy (structuredTier doc) = true ->
      (forall content, ogImageContent doc = Some content ->
                       matchItemCode content = None) ->
      falsy (extractArticleId doc) = true)
  /\ (forall u partNumber0,
        newURL P url = Normal u ->
        classify (hostname u) = Some reliance_digital ->
        (falsy (extractArticleId doc) = true ->
         getProductDetails P url partNumber0
         = Normal (Failure extractionMessage))
        /\ (forall d,
              getProductDetails P url partNumber0 = Normal (Descriptor d) ->
              extractArticleId doc = Some (productId d)))
  /\ (forall el lead core trail,
        spanFirstChildText el = lead ++ core ++ trail ->
        all isWhiteSpace lead = true -> all isWhiteSpace trail = true ->
        firstIsWhite core = false -> lastIsWhite core = false ->
        (isItemCode el <-> core = "Item Code"))
  /\ (forall before r after lead core trail,
        specificationsList doc = (before ++ r :: after)%list ->
        (forall b, In b before -> ~ isItemCode b) -> isItemCode r ->
        rightUlText r = lead ++ core ++ trail ->
        all isWhiteSpace lead = true -> all isWhiteSpace trail = true ->
        firstIsWhite core = false -> lastIsWhite core = false ->
        structuredTier doc = Some core
        /\ (core <> EmptyString ->
            getRelianceDigitalArticleId P url = Normal (Some core))).
Proof.
  intros Hf Hok Ht Hc.
  pose proof (scraper_success P url html response doc Hf Hok Ht Hc) as Hs.
  split; [exact Hs |].
  split.
  { intros before r after Hrows Hb Hr.
    assert (H1 : structuredTier doc = Some (trim (rightUlText r))).
    { unfold structuredTier. rewrite Hrows.
      now apply eachSpecification_first. }
    split; [exact H1 |]. intros Hne. unfold extractArticleId.
    rewrite H1. apply fallbackTier_skipped. simpl.
    destruct (trim (rightUlText r)); [congruence | reflexivity]. }
  split.
  { intros Hb. unfold structuredTier. now apply eachSpecification_none. }
  split.
  { intros H. now apply fallbackTier_skipped. }
  split.
  { intros H content d Ho Hm. unfold extractArticleId.
    exact (fallbackTier_match doc _ content d H Ho Hm). }
  split; [exact matchItemCode_sound |].
  split; [exact matchItemCode_complete |].
  split; [reflexivity |].
  split.
  { intros H Hn. unfold extractArticleId.
    now rewrite (fallbackTier_no_match doc _ Hn). }
  split.
  { intros u pn Hu Hcl.
    exact (reliance_scraped P url pn u (extractArticleId doc) Hu Hcl Hs). }
  split.
  { intros el lead core trail Hlab Hl Htr Hfi Hla. unfold isItemCode.
    rewrite Hlab, (trim_spec _ _ _ Hl Htr Hfi Hla). tauto. }
  intros before r after lead core trail Hrows Hb Hr Hval Hl Htr Hfi Hla.
  assert (H1 : structuredTier doc = Some core).
  { unfold structuredTier. rewrite Hrows.
    rewrite (eachSpecification_first before after r None Hb Hr).
    now rewrite Hval, (trim_spec _ _ _ Hl Htr Hfi Hla). }
  split; [exact H1 |]. intros Hne. rewrite Hs. unfold extractArticleId.
  rewrite H1. f_equal. apply fallbackTier_skipped. simpl.
  destruct core; [congruence | reflexivity].
Qed.

Lemma reliance_two_tiers_witness :
  (fetch (reliancePlatform fallbackDocument) relianceUrl
   = Normal {| ok := true; status := 200; text := Normal "<html>" |}
   /\ cheerioLoad (reliancePlatform fallbackDocument) "<html>"
      = Normal fallbackDocument
   /\ getRelianceDigitalArticleId (reliancePlatform fallbackDocument)
        relianceUrl
      = Normal (Some "300012345")
   /\ getProductDetails (reliancePlatform fallbackDocument) relianceUrl None
      = Normal (Descriptor {| name := "(R. Digital) P...";
                              productId := "300012345";
                              storeType := reliance_digital;
                              partNumber := Some "493838" |}))
  /\ (cheerioLoad (reliancePlatform structuredDocument) "<html>"
      = Normal structuredDocument
      /\ specificationsList structuredDocument
         = ([ {| spanFirstChildText := "Brand"; rightUlText := "Apple" |} ]
            ++ {| spanFirstChildText := " Item Code ";
                  rightUlText := "  300012345 " |}
            :: [ {| spanFirstChildText := "Item Code";
                    rightUlText := "999999999" |} ])%list
      /\ "  300012345 " = "  " ++ "300012345" ++ " "
      /\ structuredTier structuredDocument = Some "300012345"
      /\ getRelianceDigitalArticleId (reliancePlatform structuredDocument)
           relianceUrl
         = Normal (Some "300012345")).
Proof.
  split.
  - split; [reflexivity |]. split; [reflexivity |].
    split; [| reflexivity].
    exact (proj1 (reliance_two_tiers (reliancePlatform fallbackDocument)
                    relianceUrl "<html>"
                    {| ok := true; status := 200; text := Normal "<html>" |}
                    fallbackDocument eq_refl eq_refl eq_refl eq_refl)).
  - split; [reflexivity |]. split; [reflexivity |]. split; [reflexivity |].
    pose proof (reliance_two_tiers (reliancePlatform structuredDocument)
                  relianceUrl "<html>"
                  {| ok := true; status := 200; text := Normal "<html>" |}
                  structuredDocument eq_refl eq_refl eq_refl eq_refl) as H.
    do 10 apply proj2 in H. destruct H as [Hlabel Hvalue].
    assert (Hrow : isItemCode {| spanFirstChildText := " Item Code ";
                                 rightUlText := "  300012345 " |}).
    { exact (proj2 (Hlabel {| spanFirstChildText := " Item Code ";
                              rightUlText := "  300012345 " |}
                      " " "Item Code" " "
                      eq_refl eq_refl eq_refl eq_refl eq_refl) eq_refl). }
    assert (Hbefore : forall b,
               In b [ {| spanFirstChildText := "Brand";
                         rightUlText := "Apple" |} ] -> ~ isItemCode b).
    { intros b [<-|[]] Hb.
      apply (proj1 (Hlabel {| spanFirstChildText := "Brand";
                              rightUlText := "Apple" |}
                      EmptyString "Brand" EmptyString
                      eq_refl eq_refl eq_refl eq_refl eq_refl)) in Hb.
      discriminate. }
    destruct (Hvalue
                [ {| spanFirstChildText := "Brand"; rightUlText := "Apple" |} ]
                {| spanFirstChildText := " Item Code ";
                   rightUlText := "  300012345 " |}
                [ {| spanFirstChildText := "Item Code";
                     rightUlText := "999999999" |} ]
                "  " "300012345" " "
                eq_refl Hbefore Hrow eq_refl eq_refl eq_refl eq_refl eq_refl)
      as [Htier Hresult].
    split; [exact Htier |]. apply Hresult. discriminate.
Defined.

(** C9: when the first row labelled [Item Code] has a value that trims
    to the empty string, the structured tier yields the empty string,
    which counts as nothing: the [og:image] content is still matched,
    its capture is the result when it matches, and the result stays the
    empty string when it does not. *)
Theorem blank_item_code_falls_back (P : Platform) (url html : string)
  (response : Response) (doc : Document)
  (before after : list SpecificationsListItem) (r : SpecificationsListItem) :
  fetch P url = Normal response -> ok response = true ->
  text response = Normal html -> cheerioLoad P html = Normal doc ->
  specificationsList doc = (before ++ r :: after)%list ->
  (forall b, In b before -> ~ isItemCode b) -> isItemCode r ->
  trim (rightUlText r) = EmptyString ->
  structuredTier doc = Some EmptyString
  /\ falsy (structuredTier doc) = true
  /\ getRelianceDigitalArticleId P url
     = Normal (match ogImageContent doc with
               | Some content =>
                   match matchItemCode content with
                   | Some d => Some d
                   | None => Some EmptyString
                   end
               | None => Some EmptyString
               end)
  /\ (forall content d,
        ogImageContent doc = Some content ->
        matchItemCode content = Some d ->
        getRelianceDigitalArticleId P url = Normal (Some d)).
Proof.
  intros Hf Hok Ht Hc Hrows Hb Hr Hv.
  assert (H1 : structuredTier doc = Some EmptyString).
  { unfold structuredTier. rewrite Hrows, <- Hv.
    now apply eachSpecification_first. }
  rewrite (scraper_success P url html response doc Hf Hok Ht Hc).
  unfold extractArticleId. rewrite H1.
  split; [reflexivity |]. split; [reflexivity |]. split.
  - destruct (ogImageContent doc) as [content|] eqn:Ho.
    + destruct (matchItemCode content) as [d|] eqn:Hm.
      * now rewrite (fallbackTier_match doc (Some EmptyString) content d eq_refl Ho Hm).
      * rewrite fallbackTier_no_match; [reflexivity |].
        intros c' Hc'. congruence.
    + rewrite fallbackTier_no_match; [reflexivity |].
      intros c' Hc'. congruence.
  - intros content d Ho Hm.
    now rewrite (fallbackTier_match doc (Some EmptyString) content d eq_refl Ho Hm).
Qed.

Lemma blank_item_code_falls_back_witness :
  specificationsList blankValueDocument
  = ([ {| spanFirstChildText := "Brand"; rightUlText := "Apple" |} ]
     ++ {| spanFirstChildText := " Item Code "; rightUlText := "   " |}
     :: [ {| spanFirstChildText := "Item Code";
             rightUlText := "999999999" |} ])%list
  /\ trim "   " = EmptyString
  /\ getRelianceDigitalArticleId (reliancePlatform blankValueDocument)
       relianceUrl
     = Normal (Some "300012345").
Proof.
  split; [reflexivity |]. split; [reflexivity |].
  refine (proj1 (proj2 (proj2
            (blank_item_code_falls_back (reliancePlatform blankValueDocument)
               relianceUrl "<html>"
               {| ok := true; status := 200; text := Normal "<html>" |}
               blankValueDocument
               [ {| spanFirstChildText := "Brand"; rightUlText := "Apple" |} ]
               [ {| spanFirstChildText := "Item Code";
                    rightUlText := "999999999" |} ]
               {| spanFirstChildText := " Item Code "; rightUlText := "   " |}
               eq_refl eq_refl eq_refl eq_refl eq_refl _ eq_refl eq_refl)))).
  intros b [<-|[]]. unfold isItemCode. simpl. discriminate.
Defined.

(** ** [addProduct] *)

Lemma bind_Throw {A B : Type} (c : Completion A) (k : A -> Completion B)
  (m : string) :
  bind c k = Throw m -> c = Throw m \/ exists a, c = Normal a /\ k a = Throw m.
Proof.
  destruct c as [a|m']; simpl; [eauto | intros H; left; now inversion H].
Qed.

Lemma throwIfNot_Throw (v : option string) (message m : string) :
  throwIfNot v message = Throw m -> m = message.
Proof. destruct v as [[|c t]|]; simpl; intros H; now inversion H. Qed.

Lemma method_Throw (P : Platform) (property : string) (v : option string)
  (m : string) :
  method P property v = Throw m -> m = undefinedPropertyMessage P property.
Proof. destruct v; simpl; intros H; now inversion H. Qed.

Lemma scraper_never_throws (P : Platform) (url m : string) :
  getRelianceDigitalArticleId P url <> Throw m.
Proof.
  unfold getRelianceDigitalArticleId.
  destruct (getRelianceDigitalArticleId_try P url); discriminate.
Qed.

Ltac throw_cases :=
  repeat match goal with
    | H : bind _ _ = Throw _ |- _ =>
        apply bind_Throw in H; destruct H as [H | (? & ? & H)]
    | H : throwIfNot _ _ = Throw _ |- _ =>
        apply throwIfNot_Throw in H; subst
    | H : method _ _ _ = Throw _ |- _ => apply method_Throw in H; subst
    | H : getRelianceDigitalArticleId _ _ = Throw _ |- _ =>
        exfalso; exact (scraper_never_throws _ _ _ H)
    | H : (if ?b then _ else _) = Throw _ |- _ => destruct b eqn:?
    | H : Throw _ = Throw _ |- _ => inversion H; subst; clear H
    | H : Normal _ = Throw _ |- _ => discriminate H
    end.

Lemma strategy_message (t : StoreType) (P : Platform) (url : string)
  (partNumber0 : option string) (u : URL) (m : string) :
  messagesNonEmpty P ->
  strategy t P url partNumber0 u = Throw m -> m <> EmptyString.
Proof.
  intros [_ Hp] H.
  destruct t; simpl in H;
    unfold amazonLogic, flipkartLogic, cromaLogic, appleLogic, vivoLogic,
      iqooLogic, relianceDigitalLogic, productOrNumeric in H;
    throw_cases; try apply Hp; discriminate.
Qed.

Lemma failure_message (P : Platform) (url : string)
  (partNumber0 : option string) (m : string) :
  messagesNonEmpty P ->
  getProductDetails P url partNumber0 = Normal (Failure m) ->
  m <> EmptyString.
Proof.
  intros HP. unfold getProductDetails.
  rewrite getProductDetails_try_dispatch.
  destruct (newURL P url) as [u|m'] eqn:Hu; simpl.
  - destruct (classify (hostname u)) as [t|].
    + destruct (strategy t P url partNumber0 u) as [d|m'] eqn:Hs;
        intros H; inversion H; subst.
      exact (strategy_message t P url partNumber0 u m HP Hs).
    + intros H. inversion H. discriminate.
  - intros H. inversion H; subst. exact (proj1 HP url m Hu).
Qed.

(** C10: on a platform whose error messages are not empty, when the
    [url] field of the form is absent or empty [addProduct] returns the
    error [URL is required.], and when [getProductDetails] returns a
    failure it returns the message of that failure; in both cases it
    makes no call at all, so [prisma.product.create] is not invoked.  A
    call of [prisma.product.create] is only made after
    [getProductDetails] has returned a descriptor. *)
Theorem addProduct_failure_stores_nothing (P : Platform)
  (formData : list (string * string)) :
  messagesNonEmpty P ->
  (falsy (entriesGet formData "url") = true ->
   addProduct P formData = (Normal (ActionError "URL is required."), []))
  /\ (forall url message,
        entriesGet formData "url" = Some url -> url <> EmptyString ->
        getProductDetails P url (entriesGet formData "partNumber")
        = Normal (Failure message) ->
        addProduct P formData = (Normal (ActionError message), []))
  /\ (forall data,
        In (PrismaProductCreate data) (snd (addProduct P formData)) ->
        exists url d,
          entriesGet formData "url" = Some url
          /\ getProductDetails P url (entriesGet formData "partNumber")
             = Normal (Descriptor d)).
Proof.
  intros HP. unfold addProduct. split; [| split].
  - destruct (entriesGet formData "url") as [[|c t]|]; simpl;
      intros H; (discriminate || reflexivity).
  - intros url m Hurl Hne Hd. cbv zeta. rewrite Hurl.
    destruct url as [|c t]; [congruence|]. cbn [whenTruthy truthy].
    rewrite Hd. cbn [details_error whenTruthy].
    pose proof (failure_message P _ _ m HP Hd) as Hm.
    destruct m as [|c' t']; [congruence | reflexivity].
  - intros data. cbv zeta.
    destruct (entriesGet formData "url") as [url|]; [|intros []].
    cbn [whenTruthy]. destruct (truthy url); [|intros []].
    destruct (getProductDetails P url (entriesGet formData "partNumber"))
      as [[m|d]|m] eqn:Hd; [| eauto | intros []].
    pose proof (failure_message P _ _ m HP Hd) as Hm.
    destruct m as [|c' t']; [congruence | intros []].
Qed.

Lemma messagesNonEmpty_tablePlatform (urls : list (string * URL))
  (responses : list (string * Response))
  (documents : list (string * Document)) :
  messagesNonEmpty (tablePlatform urls responses documents).
Proof.
  split; simpl.
  - intros url m. destruct (lookup urls url); intros H; inversion H.
    discriminate.
  - intros property. discriminate.
Defined.

Lemma addProduct_failure_stores_nothing_witness :
  messagesNonEmpty (tablePlatform [] [] [])
  /\ getProductDetails (tablePlatform [] [] []) "not a url" None
     = Normal (Failure "Invalid URL")
  /\ addProduct (tablePlatform [] [] []) [("url", "not a url")]
     = (Normal (ActionError "Invalid URL"), []).
Proof.
  split; [apply messagesNonEmpty_tablePlatform |].
  split; [reflexivity |].
  exact (proj1 (proj2 (addProduct_failure_stores_nothing
                         (tablePlatform [] [] []) [("url", "not a url")]
                         (messagesNonEmpty_tablePlatform [] [] [])))
           "not a url" "Invalid URL" eq_refl
           (fun H : "not a url" = EmptyString =>
              eq_ind "not a url"
                (fun s => match s with EmptyString => False | _ => True end)
                I EmptyString H)
           eq_refl).
Defined.

Example addProduct_run :
  addProduct
    (urlPlatform "https://www.amazon.in/Some-Great-Item/dp/B0CX59H5W7"
       "www.amazon.in" "/Some-Great-Item/dp/B0CX59H5W7")
    [("url", "https://www.amazon.in/Some-Great-Item/dp/B0CX59H5W7");
     ("affiliateLink", EmptyString)]
  = (Normal (ActionSuccess "Added (Amazon) Some Great Item..."),
     [PrismaProductCreate
        {| data_name := Some "(Amazon) Some Great Item...";
           data_url := "https://www.amazon.in/Some-Great-Item/dp/B0CX59H5W7";
           data_productId := Some "B0CX59H5W7";
           data_storeType := Some amazon;
           data_partNumber := None;
           data_affiliateLink := None |};
      RevalidatePath "/"]).
Proof. reflexivity. Qed.

(** * Further properties of the server action *)

Lemma getProductDetails_run (P : Platform) (url : string)
  (partNumber0 : option string) (u : URL) (t : StoreType) :
  newURL P url = Normal u -> classify (hostname u) = Some t ->
  getProductDetails P url partNumber0
  = match strategy t P url partNumber0 u with
    | Normal d => Normal (Descriptor d)
    | Throw m => Normal (Failure m)
    end.
Proof.
  intros Hu Ht. unfold getProductDetails.
  now rewrite (getProductDetails_classified P url partNumber0 u t Hu Ht).
Qed.

Lemma classify_signature (host : string) (t : StoreType) :
  classify host = Some t ->
  includes host (signature t) = true
  /\ (t = vivo -> includes host "iqoo.com" = false).
Proof.
  unfold classify.
  destruct (includes host "vivo.com") eqn:E1;
    destruct (includes host "iqoo.com") eqn:E2; simpl;
    try (intros H; inversion H; subst; simpl; split;
         [assumption | intros; congruence || reflexivity]);
    destruct (includes host "reliancedigital.in") eqn:E3;
    try (intros H; inversion H; subst; simpl; split;
         [assumption | discriminate]);
    destruct (includes host "flipkart.com") eqn:E4;
    try (intros H; inversion H; subst; simpl; split;
         [assumption | discriminate]);
    destruct (includes host "amazon.in") eqn:E5;
    try (intros H; inversion H; subst; simpl; split;
         [assumption | discriminate]);
    destruct (includes host "apple.com") eqn:E6;
    try (intros H; inversion H; subst; simpl; split;
         [assumption | discriminate]);
    destruct (includes host "croma.com") eqn:E7;
    try (intros H; inversion H; subst; simpl; split;
         [assumption | discriminate]);
    discriminate.
Qed.

Lemma classify_None (host : string) :
  (forall sig, In sig signatures -> includes host sig = false) ->
  classify host = None.
Proof.
  intros H. unfold classify.
  rewrite (H "vivo.com"), (H "iqoo.com"), (H "reliancedigital.in"),
    (H "flipkart.com"), (H "amazon.in"), (H "apple.com"), (H "croma.com");
    simpl; tauto.
Qed.

(** X1: when the host of the URL contains none of the seven store
    substrings, resolution fails with the message that lists the
    supported stores, whatever the path, the query and the part number;
    no strategy is run and no request is made. *)
Theorem unsupported_host_rejected (P : Platform) (url : string)
  (partNumber0 : option string) (u : URL) :
  newURL P url = Normal u ->
  (forall sig, In sig signatures -> includes (hostname u) sig = false) ->
  getProductDetails P url partNumber0 = Normal (Failure unsupportedMessage)
  /\ getProductDetails_try P url partNumber0 = Throw unsupportedMessage.
Proof.
  intros Hu Hs. apply classify_None in Hs.
  unfold getProductDetails. rewrite getProductDetails_try_dispatch, Hu.
  simpl. rewrite Hs. split; reflexivity.
Qed.

Lemma unsupported_host_rejected_witness :
  newURL (urlPlatform "https://www.example.com/dp/B0CX59H5W7"
            "www.example.com" "/dp/B0CX59H5W7")
    "https://www.example.com/dp/B0CX59H5W7"
  = Normal {| hostname := "www.example.com";
              pathname := "/dp/B0CX59H5W7";
              searchParams := [] |}
  /\ getProductDetails
       (urlPlatform "https://www.example.com/dp/B0CX59H5W7"
          "www.example.com" "/dp/B0CX59H5W7")
       "https://www.example.com/dp/B0CX59H5W7" (Some "MG6P4HN/A")
     = Normal (Failure unsupportedMessage).
Proof.
  split; [reflexivity |].
  refine (proj1 (unsupported_host_rejected
                   (urlPlatform "https://www.example.com/dp/B0CX59H5W7"
                      "www.example.com" "/dp/B0CX59H5W7")
                   "https://www.example.com/dp/B0CX59H5W7" (Some "MG6P4HN/A")
                   {| hostname := "www.example.com";
                      pathname := "/dp/B0CX59H5W7";
                      searchParams := [] |}
                   eq_refl _)).
  intros sig H. simpl in H.
  repeat (destruct H as [<-|H]; [reflexivity |]). destruct H.
Defined.

(** X2: the store type of a returned descriptor always has its
    substring in the host of the URL, and a descriptor of type [vivo] is
    only returned for a host without [iqoo.com]. *)
Theorem storeType_has_signature (P : Platform) (url : string)
  (partNumber0 : option string) (d : ProductDescriptor) :
  getProductDetails P url partNumber0 = Normal (Descriptor d) ->
  exists u, newURL P url = Normal u
            /\ classify (hostname u) = Some (storeType d)
            /\ includes (hostname u) (signature (storeType d)) = true
            /\ (storeType d = vivo -> includes (hostname u) "iqoo.com" = false).
Proof.
  intros H. apply getProductDetails_Descriptor in H.
  destruct H as (u & t & Hu & Ht & Hs).
  apply strategy_descriptor in Hs. destruct Hs as (Hst & _).
  subst t. exists u. destruct (classify_signature _ _ Ht). auto.
Qed.

Lemma storeType_has_signature_witness :
  getProductDetails
    (urlPlatform "https://shop.vivo.com/in/product/10736"
       "shop.vivo.com" "/in/product/10736")
    "https://shop.vivo.com/in/product/10736" None
  = Normal (Descriptor {| name := "(Vivo) Vivo Product...";
                          productId := "10736";
                          storeType := vivo;
                          partNumber := None |})
  /\ exists u,
       newURL (urlPlatform "https://shop.vivo.com/in/product/10736"
                 "shop.vivo.com" "/in/product/10736")
         "https://shop.vivo.com/in/product/10736" = Normal u
       /\ classify (hostname u) = Some vivo
       /\ includes (hostname u) "vivo.com" = true
       /\ (vivo = vivo -> includes (hostname u) "iqoo.com" = false).
Proof.
  split; [reflexivity |].
  exact (storeType_has_signature
           (urlPlatform "https://shop.vivo.com/in/product/10736"
              "shop.vivo.com" "/in/product/10736")
           "https://shop.vivo.com/in/product/10736" None
           {| name := "(Vivo) Vivo Product...";
              productId := "10736";
              storeType := vivo;
              partNumber := None |}
           eq_refl).
Defined.

(** X3: for a URL sent to the Flipkart strategy, the identifier is the
    value of the first [pid] query parameter: resolution returns a
    descriptor with that [productId], no part number and a name built
    from the path segment of index 1 (or [Flipkart Product]) exactly
    when that value is a non-empty string, and fails with the [pid]
    message otherwise, also when a later [pid] parameter has a value.
    The part number passed by the caller plays no role. *)
Theorem flipkart_first_pid (P : Platform) (url : string)
  (partNumber0 : option string) (u : URL) :
  newURL P url = Normal u ->
  classify (hostname u) = Some flipkart ->
  (forall pid, entriesGet (searchParams u) "pid" = Some pid ->
               pid <> EmptyString ->
     getProductDetails P url partNumber0
     = Normal (Descriptor
                 {| name := "(Flipkart) "
                            ++ plainName
                                 (orDefault (item (split (pathname u) "/") 1)
                                            "Flipkart Product");
                    productId := pid;
                    storeType := flipkart;
                    partNumber := None |}))
  /\ (falsy (entriesGet (searchParams u) "pid") = true ->
      getProductDetails P url partNumber0 = Normal (Failure flipkartMessage))
  /\ (forall rest,
        searchParams u = (("pid", EmptyString) :: rest)%list ->
        getProductDetails P url partNumber0
        = Normal (Failure flipkartMessage)).
Proof.
  intros Hu Ht.
  rewrite (getProductDetails_run P url partNumber0 u flipkart Hu Ht).
  simpl strategy. unfold flipkartLogic. split; [| split].
  - intros pid Hp Hne. rewrite Hp, (throwIfNot_truthy _ _ Hne). reflexivity.
  - intros Hf. now rewrite (throwIfNot_falsy _ _ Hf).
  - intros rest Hr. rewrite Hr. reflexivity.
Qed.

Lemma flipkart_first_pid_witness :
  classify "www.flipkart.com" = Some flipkart
  /\ getProductDetails
       (tablePlatform
          [("https://www.flipkart.com/product-name/p/itm123?pid=&pid=ABCD12345",
            {| hostname := "www.flipkart.com";
               pathname := "/product-name/p/itm123";
               searchParams := [("pid", EmptyString); ("pid", "ABCD12345")] |})]
          [] [])
       "https://www.flipkart.com/product-name/p/itm123?pid=&pid=ABCD12345"
       (Some "ABCD12345")
     = Normal (Failure flipkartMessage).
Proof.
  split; [reflexivity |].
  exact (proj2 (proj2 (flipkart_first_pid
           (tablePlatform
              [("https://www.flipkart.com/product-name/p/itm123?pid=&pid=ABCD12345",
                {| hostname := "www.flipkart.com";
                   pathname := "/product-name/p/itm123";
                   searchParams :=
                     [("pid", EmptyString); ("pid", "ABCD12345")] |})]
              [] [])
           "https://www.flipkart.com/product-name/p/itm123?pid=&pid=ABCD12345"
           (Some "ABCD12345")
           {| hostname := "www.flipkart.com";
              pathname := "/product-name/p/itm123";
              searchParams := [("pid", EmptyString); ("pid", "ABCD12345")] |}
           eq_refl eq_refl))
           [("pid", "ABCD12345")] eq_refl).
Defined.

(** X4: for a URL sent to the Apple strategy the identifier is the part
    number supplied by the caller and nothing of the URL: with a
    non-empty part number the descriptor has it both as [productId] and
    as [partNumber], and the path only gives the name (segment of index
    3, or [Apple Product]); with no part number, or an empty one,
    resolution fails with the part-number message whatever the path. *)
Theorem apple_part_number (P : Platform) (url : string)
  (partNumber0 : option string) (u : URL) :
  newURL P url = Normal u ->
  classify (hostname u) = Some apple ->
  (forall pn, partNumber0 = Some pn -> pn <> EmptyString ->
     getProductDetails P url partNumber0
     = Normal (Descriptor
                 {| name := "(Apple) "
                            ++ plainName
                                 (orDefault (item (split (pathname u) "/") 3)
                                            "Apple Product");
                    productId := pn;
                    storeType := apple;
                    partNumber := Some pn |}))
  /\ (falsy partNumber0 = true ->
      getProductDetails P url partNumber0
      = Normal (Failure "Apple products require a Part Number.")).
Proof.
  intros Hu Ht.
  rewrite (getProductDetails_run P url partNumber0 u apple Hu Ht).
  simpl strategy. unfold appleLogic. split.
  - intros pn -> Hne. rewrite (throwIfNot_truthy _ _ Hne). reflexivity.
  - intros Hf. now rewrite (throwIfNot_falsy _ _ Hf).
Qed.

Lemma apple_part_number_witness :
  classify "www.apple.com" = Some apple
  /\ getProductDetails
       (urlPlatform "https://www.apple.com/in/shop/buy-iphone/iphone-15"
          "www.apple.com" "/in/shop/buy-iphone/iphone-15")
       "https://www.apple.com/in/shop/buy-iphone/iphone-15"
       (Some "MG6P4HN/A")
     = Normal (Descriptor {| name := "(Apple) buy iphone...";
                             productId := "MG6P4HN/A";
                             storeType := apple;
                             partNumber := Some "MG6P4HN/A" |}).
Proof.
  split; [reflexivity |].
  exact (proj1 (apple_part_number
           (urlPlatform "https://www.apple.com/in/shop/buy-iphone/iphone-15"
              "www.apple.com" "/in/shop/buy-iphone/iphone-15")
           "https://www.apple.com/in/shop/buy-iphone/iphone-15"
           (Some "MG6P4HN/A")
           {| hostname := "www.apple.com";
              pathname := "/in/shop/buy-iphone/iphone-15";
              searchParams := [] |}
           eq_refl eq_refl)
           "MG6P4HN/A" eq_refl
           (fun H : "MG6P4HN/A" = EmptyString =>
              eq_ind "MG6P4HN/A"
                (fun s => match s with EmptyString => False | _ => True end)
                I EmptyString H)).
Defined.

(** ** Path segments *)

Lemma item_defined {A : Type} (a : list A) (i : Z) :
  (0 <= i < len a)%Z -> exists x, item a i = Some x.
Proof.
  unfold item, len. intros H.
  destruct (Z.ltb_spec i 0); [lia|].
  destruct (nth_error a (Z.to_nat i)) as [x|] eqn:E; [eauto|].
  apply nth_error_None in E. lia.
Qed.

Lemma lastOf_In (a : list string) (x : string) :
  lastOf a = Some x -> In x a.
Proof.
  induction a as [|y a IH]; [discriminate|].
  destruct a as [|z a].
  - simpl. intros H. inversion H. now left.
  - change (lastOf (y :: z :: a)) with (lastOf (z :: a)).
    intros H. right. now apply IH.
Qed.

Lemma lastOf_None (a : list string) : lastOf a = None -> a = [].
Proof.
  induction a as [|y a IH]; [reflexivity|].
  destruct a as [|z a]; [discriminate|].
  change (lastOf (y :: z :: a)) with (lastOf (z :: a)).
  intros H. specialize (IH H). discriminate.
Qed.

Lemma pathPart_nonempty (u : URL) (x : string) :
  In x (pathPartsNonEmpty u) -> x <> EmptyString.
Proof.
  unfold pathPartsNonEmpty. intros H. apply filter_In in H.
  destruct H as [_ H]. intros ->. discriminate.
Qed.

Lemma beforeLast_short (a : list string) :
  (len a < 2)%Z -> beforeLast a = None.
Proof.
  intros H. unfold beforeLast.
  destruct (Z.leb_spec 2 (len a)); [lia | reflexivity].
Qed.

Lemma beforeLast_long (a : list string) :
  (2 <= len a)%Z ->
  exists seg, item a (len a - 2) = Some seg /\ beforeLast a = Some seg.
Proof.
  intros H. destruct (item_defined a (len a - 2)) as [seg Hs]; [lia|].
  exists seg. split; [exact Hs |]. unfold beforeLast.
  destruct (Z.leb_spec 2 (len a)); [exact Hs | lia].
Qed.

Lemma productOrNumeric_Some (P : Platform) (seg label : string) :
  productOrNumeric P (Some seg) label
  = Normal (if String.eqb seg "product" || allDigits seg
            then label else seg).
Proof.
  unfold productOrNumeric. destruct (String.eqb seg "product"); simpl;
    [reflexivity |]. now destruct (allDigits seg).
Qed.

(** The name segment chosen by the Vivo and iQOO blocks. *)
Lemma nameSegment_rule (P : Platform) (parts : list string) (label : string) :
  String.eqb label "product" || allDigits label = false ->
  productOrNumeric P
    (if (2 <=? len parts)%Z then item parts (len parts - 2) else Some label)
    label
  = Normal (match beforeLast parts with
            | Some seg => if String.eqb seg "product" || allDigits seg
                          then label else seg
            | None => label
            end).
Proof.
  intros Hl. destruct (Z.leb_spec 2 (len parts)) as [H|H].
  - destruct (beforeLast_long parts H) as (seg & -> & ->).
    apply productOrNumeric_Some.
  - rewrite (beforeLast_short parts H), productOrNumeric_Some, Hl.
    reflexivity.
Qed.

(** X5: for a URL sent to the Vivo or to the iQOO strategy, the
    identifier is the last non-empty path segment: with such a segment
    resolution always returns a descriptor, with that segment as
    [productId], no part number, and a name built from the non-empty
    segment before it, replaced by the store's default label when it is
    missing, equal to [product], or numeric; with no non-empty segment
    it fails with the store's product-ID message.  No [TypeError] can
    arise on these paths. *)
Theorem vivo_iqoo_last_segment (P : Platform) (url : string)
  (partNumber0 : option string) (u : URL) (t : StoreType) :
  newURL P url = Normal u ->
  classify (hostname u) = Some t ->
  t = vivo \/ t = iqoo ->
  (pathPartsNonEmpty u = [] ->
   getProductDetails P url partNumber0 = Normal (Failure (missingIdMessage t)))
  /\ (forall pid, lastOf (pathPartsNonEmpty u) = Some pid ->
        pid <> EmptyString
        /\ getProductDetails P url partNumber0
           = Normal (Descriptor
                       {| name :=
                            storeLabel t
                            ++ titleName
                                 (match beforeLast (pathPartsNonEmpty u) with
                                  | Some seg =>
                                      if String.eqb seg "product"
                                         || allDigits seg
                                      then defaultLabel t else seg
                                  | None => defaultLabel t
                                  end);
                          productId := pid;
                          storeType := t;
                          partNumber := None |})).
Proof.
  intros Hu Ht Hvi.
  rewrite (getProductDetails_run P url partNumber0 u t Hu Ht).
  split.
  - intros He. destruct Hvi as [->| ->]; simpl strategy;
      unfold vivoLogic, iqooLogic; rewrite He; reflexivity.
  - intros pid Hl.
    assert (Hne : pid <> EmptyString)
      by (apply (pathPart_nonempty u); now apply lastOf_In).
    split; [exact Hne |].
    destruct Hvi as [->| ->]; simpl strategy; unfold vivoLogic, iqooLogic;
      cbv zeta; rewrite item_last, Hl, (throwIfNot_truthy _ _ Hne);
      cbn [bind]; rewrite nameSegment_rule by reflexivity; reflexivity.
Qed.

Lemma vivo_iqoo_last_segment_witness :
  classify "mshop.iqoo.com" = Some iqoo
  /\ lastOf (pathPartsNonEmpty
               {| hostname := "mshop.iqoo.com";
                  pathname := "/in/products/param/iqoo-z7-pro/";
                  searchParams := [] |}) = Some "iqoo-z7-pro"
  /\ getProductDetails
       (urlPlatform "https://mshop.iqoo.com/in/products/param/iqoo-z7-pro/"
          "mshop.iqoo.com" "/in/products/param/iqoo-z7-pro/")
       "https://mshop.iqoo.com/in/products/param/iqoo-z7-pro/" None
     = Normal (Descriptor {| name := "(iQOO) Param...";
                             productId := "iqoo-z7-pro";
                             storeType := iqoo;
                             partNumber := None |}).
Proof.
  split; [reflexivity |]. split; [reflexivity |].
  exact (proj2 (proj2 (vivo_iqoo_last_segment
           (urlPlatform "https://mshop.iqoo.com/in/products/param/iqoo-z7-pro/"
              "mshop.iqoo.com" "/in/products/param/iqoo-z7-pro/")
           "https://mshop.iqoo.com/in/products/param/iqoo-z7-pro/" None
           {| hostname := "mshop.iqoo.com";
              pathname := "/in/products/param/iqoo-z7-pro/";
              searchParams := [] |}
           iqoo eq_refl eq_refl (or_intror eq_refl))
           "iqoo-z7-pro" eq_refl)).
Defined.

Lemma cromaLogic_cases (u : URL) :
  cromaLogic u = Throw cromaMessage
  \/ exists pid,
       lastOf (split (pathname u) "/") = Some pid
       /\ allDigits pid = true
       /\ cromaLogic u
          = Normal {| name := "(Croma) "
                              ++ plainName
                                   (orDefault (item (split (pathname u) "/") 1)
                                              "Croma Product");
                      productId := pid;
                      storeType := croma;
                      partNumber := None |}.
Proof.
  unfold cromaLogic. rewrite item_last.
  destruct (lastOf (split (pathname u) "/")) as [[|c t]|]; simpl;
    [now left | | now left].
  destruct (allDigits (String c t)) eqn:Hd; simpl; [| now left].
  right. exists (String c t). auto.
Qed.

(** X6: for a URL sent to the Croma strategy, resolution returns a
    descriptor exactly when the last element of the path split on
    slashes is numeric, and fails with the Croma message otherwise, in
    particular for a path that ends with a slash.  The descriptor has
    that element as [productId], which is then also the last non-empty
    segment, no part number, and a name built from the element of index
    1 (or [Croma Product]). *)
Theorem croma_last_element (P : Platform) (url : string)
  (partNumber0 : option string) (u : URL) :
  newURL P url = Normal u ->
  classify (hostname u) = Some croma ->
  ((exists d, getProductDetails P url partNumber0 = Normal (Descriptor d))
   <-> (exists pid, lastOf (split (pathname u) "/") = Some pid
                    /\ allDigits pid = true))
  /\ (forall d,
        getProductDetails P url partNumber0 = Normal (Descriptor d) ->
        lastOf (split (pathname u) "/") = Some (productId d)
        /\ lastOf (pathPartsNonEmpty u) = Some (productId d)
        /\ allDigits (productId d) = true
        /\ storeType d = croma
        /\ partNumber d = None
        /\ name d = "(Croma) "
                    ++ plainName (orDefault (item (split (pathname u) "/") 1)
                                            "Croma Product"))
  /\ ((exists d, getProductDetails P url partNumber0 = Normal (Descriptor d))
      \/ getProductDetails P url partNumber0 = Normal (Failure cromaMessage))
  /\ (lastOf (split (pathname u) "/") = Some EmptyString ->
      getProductDetails P url partNumber0 = Normal (Failure cromaMessage)).
Proof.
  intros Hu Ht.
  rewrite (getProductDetails_run P url partNumber0 u croma Hu Ht).
  simpl strategy.
  destruct (cromaLogic_cases u) as [Hthrow|(pid & Hl & Hd & Hok)].
  - rewrite Hthrow. split; [| split; [| split]].
    + split; [intros [d H]; discriminate |].
      intros (pid & Hl & Hd).
      assert (exists d, cromaLogic u = Normal d) as [d H]
        by (apply cromaLogic_succeeds; eauto).
      congruence.
    + intros d H. discriminate.
    + now right.
    + reflexivity.
  - rewrite Hok. split; [| split; [| split]].
    + split; eauto.
    + intros d H. inversion H; subst d. clear H. simpl.
      destruct (cromaLogic_sound u _ Hok) as (_ & H2 & _). simpl in H2.
      repeat split; assumption.
    + left. eauto.
    + intros He. rewrite He in Hl. inversion Hl; subst. discriminate.
Qed.

Lemma croma_last_element_witness :
  classify "www.croma.com" = Some croma
  /\ exists pid,
       lastOf (split "/some-phone/p/123456" "/") = Some pid
       /\ allDigits pid = true.
Proof.
  split; [reflexivity |].
  refine (proj1 (proj1 (croma_last_element
            (urlPlatform "https://www.croma.com/some-phone/p/123456"
               "www.croma.com" "/some-phone/p/123456")
            "https://www.croma.com/some-phone/p/123456" None
            {| hostname := "www.croma.com";
               pathname := "/some-phone/p/123456";
               searchParams := [] |}
            eq_refl eq_refl)) _).
  eexists. reflexivity.
Defined.

(** X7: for a URL sent to the Reliance Digital strategy whose page gave
    a non-empty item code, the descriptor has the scraped code as
    [productId] and the last non-empty path segment, the slug, as
    [partNumber]; the name is built from the non-empty segment before
    the slug, or from the slug itself when it is the only one.  When
    the path has no non-empty segment the scraped code is lost:
    resolution fails with the message of the [TypeError] raised by
    reading [replace] of [undefined]. *)
Theorem reliance_descriptor (P : Platform) (url : string)
  (partNumber0 : option string) (u : URL) (id : string) :
  newURL P url = Normal u ->
  classify (hostname u) = Some reliance_digital ->
  getRelianceDigitalArticleId P url = Normal (Some id) ->
  id <> EmptyString ->
  (forall slug, lastOf (pathPartsNonEmpty u) = Some slug ->
     getProductDetails P url partNumber0
     = Normal (Descriptor
                 {| name := "(R. Digital) "
                            ++ titleName
                                 (match beforeLast (pathPartsNonEmpty u) with
                                  | Some b => b
                                  | None => slug
                                  end);
                    productId := id;
                    storeType := reliance_digital;
                    partNumber := Some slug |}))
  /\ (pathPartsNonEmpty u = [] ->
      getProductDetails P url partNumber0
      = Normal (Failure (undefinedPropertyMessage P "replace"))).
Proof.
  intros Hu Ht Hs Hne.
  rewrite (getProductDetails_run P url partNumber0 u _ Hu Ht).
  simpl strategy. unfold relianceDigitalLogic. rewrite Hs. cbn [bind].
  rewrite (throwIfNot_truthy _ _ Hne). cbn [bind]. cbv zeta. split.
  - intros slug Hl. rewrite item_last, Hl.
    destruct (Z.ltb_spec 1 (len (pathPartsNonEmpty u))) as [H|H].
    + destruct (beforeLast_long (pathPartsNonEmpty u)) as (b & -> & ->);
        [lia | reflexivity].
    + rewrite beforeLast_short by lia. reflexivity.
  - intros He. rewrite He. reflexivity.
Qed.

Lemma reliance_descriptor_witness :
  classify "www.reliancedigital.in" = Some reliance_digital
  /\ getRelianceDigitalArticleId (reliancePlatform fallbackDocument)
       relianceUrl = Normal (Some "300012345")
  /\ lastOf (pathPartsNonEmpty relianceParsedUrl) = Some "493838"
  /\ getProductDetails (reliancePlatform fallbackDocument) relianceUrl None
     = Normal (Descriptor {| name := "(R. Digital) P...";
                             productId := "300012345";
                             storeType := reliance_digital;
                             partNumber := Some "493838" |}).
Proof.
  split; [reflexivity |]. split; [reflexivity |]. split; [reflexivity |].
  exact (proj1 (reliance_descriptor (reliancePlatform fallbackDocument)
                  relianceUrl None relianceParsedUrl "300012345"
                  eq_refl eq_refl eq_refl
                  (fun H : "300012345" = EmptyString =>
                     eq_ind "300012345"
                       (fun s => match s with
                                 | EmptyString => False
                                 | _ => True
                                 end)
                       I EmptyString H))
           "493838" eq_refl).
Defined.

Lemma method_Normal (P : Platform) (property : string) (v : option string)
  (s : string) :
  method P property v = Normal s -> v = Some s.
Proof. destruct v; simpl; intros H; now inversion H. Qed.

(** X8: the [partNumber] of a returned descriptor is [null] for
    Amazon, Flipkart, Croma, Vivo and iQOO; for Apple it is the
    [productId] itself, which is the part number the caller supplied;
    for Reliance Digital it is the last non-empty segment of the path,
    a non-empty string. *)
Theorem partNumber_by_store (P : Platform) (url : string)
  (partNumber0 : option string) (d : ProductDescriptor) :
  getProductDetails P url partNumber0 = Normal (Descriptor d) ->
  match storeType d with
  | apple => partNumber d = Some (productId d)
             /\ partNumber0 = Some (productId d)
  | reliance_digital =>
      exists u slug, newURL P url = Normal u
                     /\ lastOf (pathPartsNonEmpty u) = Some slug
                     /\ slug <> EmptyString
                     /\ partNumber d = Some slug
  | _ => partNumber d = None
  end.
Proof.
  intros H. apply getProductDetails_Descriptor in H.
  destruct H as (u & t & Hu & Ht & Hs).
  destruct t; simpl in Hs;
    unfold amazonLogic, flipkartLogic, cromaLogic, appleLogic, vivoLogic,
      iqooLogic in Hs;
    try (invert_bind; simpl; auto; fail).
  unfold relianceDigitalLogic in Hs.
  apply bind_Normal in Hs. destruct Hs as (scraped & _ & Hs).
  apply bind_Normal in Hs. destruct Hs as (id & _ & Hs).
  cbv zeta in Hs. rewrite item_last in Hs.
  apply bind_Normal in Hs. destruct Hs as (nameBase & Hn & Hs).
  inversion Hs; subst d; clear Hs. simpl.
  apply method_Normal in Hn.
  destruct (lastOf (pathPartsNonEmpty u)) as [slug|] eqn:Hl.
  - exists u, slug. repeat split; try assumption.
    apply (pathPart_nonempty u). now apply lastOf_In.
  - exfalso. apply lastOf_None in Hl. rewrite Hl in Hn. discriminate.
Qed.

Lemma partNumber_by_store_witness :
  getProductDetails (reliancePlatform fallbackDocument) relianceUrl None
  = Normal (Descriptor {| name := "(R. Digital) P...";
                          productId := "300012345";
                          storeType := reliance_digital;
                          partNumber := Some "493838" |})
  /\ exists u slug,
       newURL (reliancePlatform fallbackDocument) relianceUrl = Normal u
       /\ lastOf (pathPartsNonEmpty u) = Some slug
       /\ slug <> EmptyString
       /\ Some "493838" = Some slug.
Proof.
  split; [reflexivity |].
  exact (partNumber_by_store (reliancePlatform fallbackDocument)
           relianceUrl None
           {| name := "(R. Digital) P...";
              productId := "300012345";
              storeType := reliance_digital;
              partNumber := Some "493838" |}
           eq_refl).
Defined.

(** ** Hyphens *)

Lemma notHyphen_toUpperCase (c : ascii) :
  notHyphen c = true -> notHyphen (toUpperCase c) = true.
Proof.
  destruct c as [[] [] [] [] [] [] [] []]; intros H; try exact H;
    reflexivity.
Qed.

Lemma all_append (p : ascii -> bool) (a b : string) :
  all p (a ++ b) = all p a && all p b.
Proof.
  induction a as [|c a IH]; simpl; [reflexivity|].
  now rewrite IH, andb_assoc.
Qed.

Lemma all_slice0 (p : ascii -> bool) (n : nat) :
  forall s, all p s = true -> all p (slice0 s n) = true.
Proof.
  induction n as [|n IH]; intros [|c s]; simpl; try reflexivity.
  intros H. apply andb_prop in H. destruct H as [H1 H2].
  now rewrite H1, IH.
Qed.

Lemma all_replaceHyphens (s : string) : all notHyphen (replaceHyphens s) = true.
Proof.
  induction s as [|c s IH]; simpl; [reflexivity|]. rewrite IH.
  destruct (Ascii.eqb_spec c "-") as [->|Hne]; [reflexivity|].
  unfold notHyphen. destruct (Ascii.eqb_spec c "-"); [contradiction|].
  reflexivity.
Qed.

Lemma all_capitalizeFrom (s : string) :
  forall prev, all notHyphen s = true ->
               all notHyphen (capitalizeFrom prev s) = true.
Proof.
  induction s as [|c s IH]; intros prev; simpl; [reflexivity|].
  intros H. apply andb_prop in H. destruct H as [H1 H2].
  rewrite (IH _ H2), andb_true_r.
  destruct (isWord c && negb prev); [now apply notHyphen_toUpperCase | exact H1].
Qed.

Lemma all_notHyphen_includes (s : string) :
  all notHyphen s = true -> includes s "-" = false.
Proof.
  induction s as [|c s IH]; [reflexivity|].
  cbn [all includes prefix]. intros H.
  apply andb_prop in H. destruct H as [H1 H2].
  rewrite (IH H2), orb_false_r.
  destruct (ascii_dec "-" c) as [<-|_]; [discriminate | reflexivity].
Qed.

(** X9: the name of a returned descriptor never contains a hyphen:
    every hyphen of the path segment it is built from has become a
    space, and neither the capitalization, the cut, the store label nor
    the marker brings one back. *)
Theorem name_has_no_hyphen (P : Platform) (url : string)
  (partNumber0 : option string) (d : ProductDescriptor) :
  getProductDetails P url partNumber0 = Normal (Descriptor d) ->
  includes (name d) "-" = false /\ all notHyphen (name d) = true.
Proof.
  intros H. apply descriptor_name in H. destruct H as (_ & raw & H).
  assert (Hall : all notHyphen (name d) = true).
  { assert (Hl : all notHyphen (storeLabel (storeType d)) = true)
      by (destruct (storeType d); reflexivity).
    destruct H as [H|H]; rewrite H, all_append, Hl;
      unfold plainName, titleName; rewrite all_append; simpl;
      rewrite andb_true_r; apply all_slice0.
    - apply all_replaceHyphens.
    - apply all_capitalizeFrom, all_replaceHyphens. }
  split; [now apply all_notHyphen_includes | exact Hall].
Qed.

Lemma name_has_no_hyphen_witness :
  getProductDetails
    (urlPlatform "https://www.amazon.in/Some-Great-Item/dp/B0CX59H5W7"
       "www.amazon.in" "/Some-Great-Item/dp/B0CX59H5W7")
    "https://www.amazon.in/Some-Great-Item/dp/B0CX59H5W7" None
  = Normal (Descriptor {| name := "(Amazon) Some Great Item...";
                          productId := "B0CX59H5W7";
                          storeType := amazon;
                          partNumber := None |})
  /\ includes "(Amazon) Some Great Item..." "-" = false.
Proof.
  split; [reflexivity |].
  exact (proj1 (name_has_no_hyphen
           (urlPlatform "https://www.amazon.in/Some-Great-Item/dp/B0CX59H5W7"
              "www.amazon.in" "/Some-Great-Item/dp/B0CX59H5W7")
           "https://www.amazon.in/Some-Great-Item/dp/B0CX59H5W7" None
           {| name := "(Amazon) Some Great Item...";
              productId := "B0CX59H5W7";
              storeType := amazon;
              partNumber := None |}
           eq_refl)).
Defined.

(** ** The calls of [addProduct] and [deleteProduct] *)

Lemma whenTruthy_Some (v : option string) (s : string) :
  whenTruthy v = Some s -> v = Some s /\ s <> EmptyString.
Proof.
  destruct v as [[|c t]|]; simpl; intros H; inversion H; subst.
  split; [reflexivity | discriminate].
Qed.

Lemma whenTruthy_truthy (s : string) :
  s <> EmptyString -> whenTruthy (Some s) = Some s.
Proof. destruct s; simpl; congruence. Qed.

(** X10: when the form has a non-empty [url] that resolves to a
    descriptor, [addProduct] calls [prisma.product.create] once, with
    the fields of the descriptor, the submitted URL and the affiliate
    link ([null] when absent or empty).  If the creation is rejected
    the result is the duplicate error and the cache is not revalidated;
    if it is accepted the path [/] is revalidated and the result is the
    success message with the name of the descriptor; if the
    revalidation throws, the duplicate error is returned although the
    row was created. *)
Theorem addProduct_stores_descriptor (P : Platform)
  (formData : list (string * string)) (url : string)
  (d : ProductDescriptor) :
  entriesGet formData "url" = Some url -> url <> EmptyString ->
  getProductDetails P url (entriesGet formData "partNumber")
  = Normal (Descriptor d) ->
  (forall m,
     prismaProductCreate P
       (rowOf url d (entriesGet formData "affiliateLink")) = Throw m ->
     addProduct P formData
     = (Normal (ActionError "Failed to add product. Is it a duplicate?"),
        [PrismaProductCreate
           (rowOf url d (entriesGet formData "affiliateLink"))]))
  /\ (prismaProductCreate P
        (rowOf url d (entriesGet formData "affiliateLink")) = Normal tt ->
      revalidatePath P "/" = Normal tt ->
      addProduct P formData
      = (Normal (ActionSuccess ("Added " ++ name d)),
         [PrismaProductCreate
            (rowOf url d (entriesGet formData "affiliateLink"));
          RevalidatePath "/"]))
  /\ (prismaProductCreate P
        (rowOf url d (entriesGet formData "affiliateLink")) = Normal tt ->
      forall m, revalidatePath P "/" = Throw m ->
      addProduct P formData
      = (Normal (ActionError "Failed to add product. Is it a duplicate?"),
         [PrismaProductCreate
            (rowOf url d (entriesGet formData "affiliateLink"));
          RevalidatePath "/"])).
Proof.
  intros Hurl Hne Hd. unfold addProduct. cbv zeta.
  rewrite Hurl, (whenTruthy_truthy _ Hne), Hd.
  cbn [details_error whenTruthy details_field].
  fold (rowOf url d (entriesGet formData "affiliateLink")).
  split; [| split].
  - intros m Hc. now rewrite Hc.
  - intros Hc Hr. now rewrite Hc, Hr.
  - intros Hc m Hr. now rewrite Hc, Hr.
Qed.

Lemma addProduct_stores_descriptor_witness :
  getProductDetails
    (urlPlatform "https://www.amazon.in/Some-Great-Item/dp/B0CX59H5W7"
       "www.amazon.in" "/Some-Great-Item/dp/B0CX59H5W7")
    "https://www.amazon.in/Some-Great-Item/dp/B0CX59H5W7" None
  = Normal (Descriptor {| name := "(Amazon) Some Great Item...";
                          productId := "B0CX59H5W7";
                          storeType := amazon;
                          partNumber := None |})
  /\ addProduct
       (urlPlatform "https://www.amazon.in/Some-Great-Item/dp/B0CX59H5W7"
          "www.amazon.in" "/Some-Great-Item/dp/B0CX59H5W7")
       [("url", "https://www.amazon.in/Some-Great-Item/dp/B0CX59H5W7");
        ("affiliateLink", EmptyString)]
     = (Normal (ActionSuccess "Added (Amazon) Some Great Item..."),
        [PrismaProductCreate
           {| data_name := Some "(Amazon) Some Great Item...";
              data_url := "https://www.amazon.in/Some-Great-Item/dp/B0CX59H5W7";
              data_productId := Some "B0CX59H5W7";
              data_storeType := Some amazon;
              data_partNumber := None;
              data_affiliateLink := None |};
         RevalidatePath "/"]).
Proof.
  split; [reflexivity |].
  exact (proj1 (proj2 (addProduct_stores_descriptor
           (urlPlatform "https://www.amazon.in/Some-Great-Item/dp/B0CX59H5W7"
              "www.amazon.in" "/Some-Great-Item/dp/B0CX59H5W7")
           [("url", "https://www.amazon.in/Some-Great-Item/dp/B0CX59H5W7");
            ("affiliateLink", EmptyString)]
           "https://www.amazon.in/Some-Great-Item/dp/B0CX59H5W7"
           {| name := "(Amazon) Some Great Item...";
              productId := "B0CX59H5W7";
              storeType := amazon;
              partNumber := None |}
           eq_refl
           (fun H : "https://www.amazon.in/Some-Great-Item/dp/B0CX59H5W7"
                    = EmptyString =>
              eq_ind "https://www.amazon.in/Some-Great-Item/dp/B0CX59H5W7"
                (fun s => match s with EmptyString => False | _ => True end)
                I EmptyString H)
           eq_refl))
           eq_refl eq_refl).
Defined.

(** X11: [addProduct] never throws, on any platform and any form data.
    An error result always carries a non-empty message, so that the
    caller's test of [result.error] sees it.  It makes at most one call
    of [prisma.product.create], [revalidatePath] is only called after
    it, with the path [/], and a success result is only returned after
    both calls completed. *)
Theorem addProduct_never_throws (P : Platform)
  (formData : list (string * string)) :
  exists r, fst (addProduct P formData) = Normal r
    /\ (snd (addProduct P formData) = []
        \/ exists data,
             snd (addProduct P formData) = [PrismaProductCreate data]
             \/ snd (addProduct P formData)
                = [PrismaProductCreate data; RevalidatePath "/"])
    /\ match r with
       | ActionError e => e <> EmptyString
       | ActionSuccess _ =>
           exists data,
             snd (addProduct P formData)
             = [PrismaProductCreate data; RevalidatePath "/"]
             /\ prismaProductCreate P data = Normal tt
             /\ revalidatePath P "/" = Normal tt
       end.
Proof.
  unfold addProduct. cbv zeta.
  destruct (whenTruthy (entriesGet formData "url")) as [url|];
    [| eexists; simpl; repeat split; [now left | discriminate]].
  assert (exists details,
             getProductDetails P url (entriesGet formData "partNumber")
             = Normal details) as [details Hd].
  { unfold getProductDetails.
    destruct (getProductDetails_try P url (entriesGet formData "partNumber"));
      eauto. }
  rewrite Hd.
  destruct (whenTruthy (details_error details)) as [e|] eqn:He.
  { apply whenTruthy_Some in He. destruct He as [_ He].
    eexists; simpl; repeat split; [now left | exact He]. }
  match goal with
  | |- context [prismaProductCreate P ?data] =>
      set (row := data); destruct (prismaProductCreate P row) as [[]|m] eqn:Hc
  end.
  - destruct (revalidatePath P "/") as [[]|m] eqn:Hr.
    + eexists; simpl; repeat split; [right; exists row; now right |].
      exists row. auto.
    + eexists; simpl; repeat split;
        [right; exists row; now right | discriminate].
  - eexists; simpl; repeat split;
      [right; exists row; now left | discriminate].
Qed.

(** X12: [deleteProduct] never throws: an error of
    [prisma.product.delete] or of [revalidatePath] is swallowed.  With
    a falsy [id] (absent, zero or the empty string) it makes no call;
    otherwise it calls [prisma.product.delete] once with that [id], and
    [revalidatePath] only after the deletion completed. *)
Theorem deleteProduct_swallows_errors (P : Platform)
  (prismaProductDelete : IdValue -> Completion unit) (id : IdValue) :
  fst (deleteProduct P prismaProductDelete id) = Normal tt
  /\ (idTruthy id = false -> snd (deleteProduct P prismaProductDelete id) = [])
  /\ (idTruthy id = true ->
      (forall m, prismaProductDelete id = Throw m ->
         snd (deleteProduct P prismaProductDelete id)
         = [PrismaProductDelete id])
      /\ (prismaProductDelete id = Normal tt ->
          snd (deleteProduct P prismaProductDelete id)
          = [PrismaProductDelete id; RevalidatePathAfterDelete "/"]))
  /\ (forall path,
        In (RevalidatePathAfterDelete path)
           (snd (deleteProduct P prismaProductDelete id)) ->
        path = "/" /\ prismaProductDelete id = Normal tt).
Proof.
  unfold deleteProduct.
  destruct (idTruthy id); cbn [negb].
  - destruct (prismaProductDelete id) as [[]|m] eqn:Hd.
    + assert (Hs : snd (match revalidatePath P "/" with
                        | Normal _ =>
                            (Normal tt,
                             [PrismaProductDelete id;
                              RevalidatePathAfterDelete "/"])
                        | Throw _ =>
                            (Normal tt,
                             [PrismaProductDelete id;
                              RevalidatePathAfterDelete "/"])
                        end)
                   = [PrismaProductDelete id; RevalidatePathAfterDelete "/"])
        by (destruct (revalidatePath P "/"); reflexivity).
      rewrite Hs. split; [destruct (revalidatePath P "/"); reflexivity |].
      split; [discriminate |]. split.
      * intros _. split; [discriminate | reflexivity].
      * intros p [H|[H|[]]]; inversion H. auto.
    + cbn [fst snd]. split; [reflexivity |]. split; [discriminate |]. split.
      * intros _. split; [reflexivity | discriminate].
      * intros p [H|[]]. discriminate.
  - cbn [fst snd]. split; [reflexivity |]. split; [reflexivity |]. split.
    + discriminate.
    + intros p [].
Qed.

(** * Properties of the form component *)

(** ** Agreement with the server action *)

(** X13: the identifiers that the form extracts agree with the server
    action: whenever [getProductDetails] returns a Croma descriptor,
    [extractCromaProductId] returns its [productId] for the same URL,
    and whenever it returns a Flipkart descriptor,
    [extractFlipkartProductId] does. *)
Theorem form_extraction_agrees (P : Platform) (url : string)
  (partNumber0 : option string) (d : ProductDescriptor) :
  getProductDetails P url partNumber0 = Normal (Descriptor d) ->
  (storeType d = croma -> extractCromaProductId P url = Some (productId d))
  /\ (storeType d = flipkart ->
      extractFlipkartProductId P url = Some (productId d)).
Proof.
  intros H. apply getProductDetails_Descriptor in H.
  destruct H as (u & t & Hu & Ht & Hs).
  destruct (strategy_descriptor t P url partNumber0 u d Hs) as (Hst & Hne & _).
  split; intros Hc; rewrite Hc in Hst; subst t; simpl in Hs.
  - destruct (cromaLogic_sound u d Hs) as (_ & Hl & Hd & _).
    unfold extractCromaProductId. rewrite Hu. cbv zeta.
    rewrite item_last, Hl, Hd.
    destruct (productId d); [congruence | reflexivity].
  - unfold extractFlipkartProductId. rewrite Hu.
    unfold flipkartLogic in Hs. invert_bind. simpl. assumption.
Qed.

Lemma form_extraction_agrees_witness :
  getProductDetails
    (urlPlatform "https://www.croma.com/some-phone/p/123456"
       "www.croma.com" "/some-phone/p/123456")
    "https://www.croma.com/some-phone/p/123456" None
  = Normal (Descriptor {| name := "(Croma) some phone...";
                          productId := "123456";
                          storeType := croma;
                          partNumber := None |})
  /\ extractCromaProductId
       (urlPlatform "https://www.croma.com/some-phone/p/123456"
          "www.croma.com" "/some-phone/p/123456")
       "https://www.croma.com/some-phone/p/123456"
     = Some "123456".
Proof.
  split; [reflexivity |].
  exact (proj1 (form_extraction_agrees
           (urlPlatform "https://www.croma.com/some-phone/p/123456"
              "www.croma.com" "/some-phone/p/123456")
           "https://www.croma.com/some-phone/p/123456" None
           {| name := "(Croma) some phone...";
              productId := "123456";
              storeType := croma;
              partNumber := None |}
           eq_refl)
           eq_refl).
Defined.

(** X14: [extractCromaProductId] returns [null] for a string that is
    not a URL, and otherwise either [null] or the last non-empty
    segment of the path, which is then a non-empty string of digits; a
    trailing slash does not hide that segment. *)
Theorem extractCromaProductId_sound (P : Platform) (url id : string) :
  extractCromaProductId P url = Some id ->
  allDigits id = true
  /\ id <> EmptyString
  /\ exists u, newURL P url = Normal u
               /\ lastOf (pathPartsNonEmpty u) = Some id.
Proof.
  unfold extractCromaProductId.
  destruct (newURL P url) as [u|m]; [|discriminate].
  cbv zeta. rewrite item_last.
  destruct (lastOf (pathPartsNonEmpty u)) as [s|] eqn:Hl; [|discriminate].
  destruct (truthy s && allDigits s) eqn:E; [|discriminate].
  intros H. inversion H; subst s. clear H.
  apply andb_prop in E. destruct E as [E1 E2].
  split; [exact E2 |]. split; [| eauto].
  destruct id; [discriminate | congruence].
Qed.

Lemma extractCromaProductId_sound_witness :
  extractCromaProductId cromaSlashPlatform cromaSlashUrl = Some "123456"
  /\ allDigits "123456" = true.
Proof.
  split; [reflexivity |].
  exact (proj1 (extractCromaProductId_sound cromaSlashPlatform cromaSlashUrl
                  "123456" eq_refl)).
Defined.

(** ** The patterns of the extraction helpers *)

Lemma tenAlnum_sound (s a : string) :
  tenAlnum s = Some a ->
  String.length a = 10 /\ all isAlnumI a = true /\ a = slice0 s 10.
Proof.
  unfold tenAlnum.
  destruct ((String.length (slice0 s 10) =? 10)%nat
            && all isAlnumI (slice0 s 10)) eqn:E; [|discriminate].
  intros H. inversion H; subst. apply andb_prop in E. destruct E as [E1 E2].
  apply Nat.eqb_eq in E1. auto.
Qed.

(** X15: [extractAmazonAsin] returns [null] for a string that is not a
    URL; a value it returns has exactly ten characters, all of them
    ASCII letters or digits, and stands in the path right after
    [/dp/] or [/gp/product/], written in any letter case. *)
Theorem extractAmazonAsin_sound (P : Platform) (url a : string) :
  extractAmazonAsin P url = Some a ->
  String.length a = 10
  /\ all isAlnumI a = true
  /\ exists u before rest,
       newURL P url = Normal u
       /\ pathname u = before ++ rest
       /\ ((prefixI "/dp/" rest = true /\ a = slice0 (sliceFrom rest 4) 10)
           \/ (prefixI "/gp/product/" rest = true
               /\ a = slice0 (sliceFrom rest 12) 10)).
Proof.
  unfold extractAmazonAsin.
  destruct (newURL P url) as [u|m]; [|discriminate].
  intros H.
  assert (Hm : forall s, matchAsin s = Some a ->
             String.length a = 10 /\ all isAlnumI a = true
             /\ exists before rest, s = before ++ rest
                  /\ ((prefixI "/dp/" rest = true
                       /\ a = slice0 (sliceFrom rest 4) 10)
                      \/ (prefixI "/gp/product/" rest = true
                          /\ a = slice0 (sliceFrom rest 12) 10))).
  { induction s as [|c t IH]; cbn [matchAsin]; [discriminate|].
    destruct (asinAt (String c t)) as [m|] eqn:E.
    - intros Hs. inversion Hs; subst m. clear Hs. unfold asinAt in E.
      destruct (prefixI "/dp/" (String c t)) eqn:E1.
      + destruct (tenAlnum (sliceFrom (String c t) 4)) as [m|] eqn:E2.
        * inversion E; subst m.
          destruct (tenAlnum_sound _ _ E2) as (H1 & H2 & H3).
          split; [exact H1 |]. split; [exact H2 |].
          exists EmptyString, (String c t). auto.
        * destruct (prefixI "/gp/product/" (String c t)) eqn:E3;
            [|discriminate].
          destruct (tenAlnum_sound _ _ E) as (H1 & H2 & H3).
          split; [exact H1 |]. split; [exact H2 |].
          exists EmptyString, (String c t). auto.
      + destruct (prefixI "/gp/product/" (String c t)) eqn:E3;
          [|discriminate].
        destruct (tenAlnum_sound _ _ E) as (H1 & H2 & H3).
        split; [exact H1 |]. split; [exact H2 |].
        exists EmptyString, (String c t). auto.
    - intros Hs. destruct (IH Hs) as (H1 & H2 & before & rest & -> & H3).
      split; [exact H1 |]. split; [exact H2 |].
      exists (String c before), rest. auto. }
  destruct (Hm _ H) as (H1 & H2 & before & rest & H3 & H4).
  split; [exact H1 |]. split; [exact H2 |].
  exists u, before, rest. auto.
Qed.

Lemma extractAmazonAsin_sound_witness :
  extractAmazonAsin
    (urlPlatform "https://www.amazon.in/some-great-item/dp/b0cx59h5w7?th=1"
       "www.amazon.in" "/some-great-item/dp/b0cx59h5w7")
    "https://www.amazon.in/some-great-item/dp/b0cx59h5w7?th=1"
  = Some "b0cx59h5w7"
  /\ String.length "b0cx59h5w7" = 10.
Proof.
  split; [reflexivity |].
  exact (proj1 (extractAmazonAsin_sound
           (urlPlatform "https://www.amazon.in/some-great-item/dp/b0cx59h5w7?th=1"
              "www.amazon.in" "/some-great-item/dp/b0cx59h5w7")
           "https://www.amazon.in/some-great-item/dp/b0cx59h5w7?th=1"
           "b0cx59h5w7" eq_refl)).
Defined.

Example extractAmazonAsin_gp_product :
  extractAmazonAsin
    (urlPlatform "https://www.amazon.in/gp/product/b0cx59h5w7"
       "www.amazon.in" "/gp/product/b0cx59h5w7")
    "https://www.amazon.in/gp/product/b0cx59h5w7"
  = Some "b0cx59h5w7".
Proof. reflexivity. Qed.

Lemma all_takeWhile (p : ascii -> bool) (s : string) :
  all p (takeWhile p s) = true.
Proof.
  induction s as [|c s IH]; simpl; [reflexivity|].
  destruct (p c) eqn:E; simpl; [now rewrite E | reflexivity].
Qed.

Lemma all_takeWhile_other (p q : ascii -> bool) (s : string) :
  all p s = true -> all p (takeWhile q s) = true.
Proof.
  induction s as [|c s IH]; simpl; [reflexivity|].
  intros H. apply andb_prop in H. destruct H as [H1 H2].
  destruct (q c); simpl; [now rewrite H1, IH | reflexivity].
Qed.

Lemma all_sliceFrom (p : ascii -> bool) (n : nat) :
  forall s, all p s = true -> all p (sliceFrom s n) = true.
Proof.
  induction n as [|n IH]; intros [|c s]; simpl; try reflexivity.
  - intros H. exact H.
  - intros H. apply andb_prop in H. destruct H as [_ H]. now apply IH.
Qed.

Lemma length_sliceFrom (n : nat) :
  forall s, String.length (sliceFrom s n) = String.length s - n.
Proof.
  induction n as [|n IH]; intros [|c s]; simpl; try reflexivity.
  apply IH.
Qed.

Lemma matchProductSku_sound (s m : string) :
  matchProductSku s = Some m ->
  m <> EmptyString
  /\ all notSlashQuestion m = true
  /\ (forall p, all p s = true -> all p m = true)
  /\ exists before rest,
       s = before ++ rest
       /\ prefixI "/product/" rest = true
       /\ m = takeWhile notSlashQuestion (sliceFrom rest 9).
Proof.
  induction s as [|c t IH]; cbn [matchProductSku]; [discriminate|].
  destruct (productSkuAt (String c t)) as [m'|] eqn:E.
  - intros H. inversion H; subst m'. clear H. unfold productSkuAt in E.
    remember (takeWhile notSlashQuestion (sliceFrom (String c t) 9))
      as cap eqn:Hcap.
    destruct (prefixI "/product/" (String c t) && truthy cap) eqn:E1;
      [|discriminate].
    inversion E; subst m. clear E.
    apply andb_prop in E1. destruct E1 as [E1 E2].
    split; [destruct cap; [discriminate | congruence] |].
    split; [rewrite Hcap; apply all_takeWhile |].
    split.
    + intros p Hp. rewrite Hcap. apply all_takeWhile_other.
      now apply all_sliceFrom.
    + exists EmptyString, (String c t). auto.
  - intros H. destruct (IH H) as (H1 & H2 & H3 & before & rest & -> & H4).
    split; [exact H1 |]. split; [exact H2 |]. split.
    + intros p Hp. simpl in Hp. apply andb_prop in Hp. destruct Hp as [_ Hp].
      now apply H3.
    + exists (String c before), rest. auto.
Qed.

Lemma slashSkuAt_sound (s m : string) :
  slashSkuAt s = Some m ->
  8 <= String.length m
  /\ m = slice0 s (String.length (takeWhile isAlnumI s) + 2).
Proof.
  unfold slashSkuAt. set (n := String.length (takeWhile isAlnumI s)).
  destruct ((6 <=? n)%nat && prefix "/" (sliceFrom s n)
            && match sliceFrom s (n + 1) with
               | EmptyString => false
               | String c _ => isAlnumI c
               end) eqn:E; [|discriminate].
  intros H. inversion H; subst m. clear H.
  apply andb_prop in E. destruct E as [E E3].
  apply andb_prop in E. destruct E as [E1 _].
  apply Nat.leb_le in E1. split; [| reflexivity].
  pose proof (length_sliceFrom (n + 1) s) as Hl.
  destruct (sliceFrom s (n + 1)) as [|c r]; [discriminate|].
  simpl in Hl. rewrite length_slice0; lia.
Qed.

Lemma matchSlashSku_sound (s m : string) :
  matchSlashSku s = Some m ->
  8 <= String.length m /\ (forall p, all p s = true -> all p m = true).
Proof.
  induction s as [|c t IH]; cbn [matchSlashSku]; [discriminate|].
  destruct (slashSkuAt (String c t)) as [m'|] eqn:E.
  - intros H. inversion H; subst m'. clear H.
    destruct (slashSkuAt_sound _ _ E) as [H1 H2].
    split; [exact H1 |]. intros p Hp. rewrite H2. now apply all_slice0.
  - intros H. destruct (IH H) as [H1 H2]. split; [exact H1 |].
    intros p Hp. simpl in Hp. apply andb_prop in Hp. destruct Hp as [_ Hp].
    now apply H2.
Qed.

(** X16: in [extractApplePartNumber] neither the truthiness test of a
    capture nor the length test of the second pattern ever rejects a
    match: the result is the capture of the first pattern when it
    matches, and otherwise whatever the second pattern captures.  A
    value it returns is never empty; from the first pattern it holds no
    slash and no question mark, from the second it has eight characters
    or more. *)
Theorem extractApplePartNumber_guards (url : string) :
  extractApplePartNumber url
  = match matchProductSku url with
    | Some m => Some m
    | None => matchSlashSku url
    end
  /\ (forall m, extractApplePartNumber url = Some m ->
        m <> EmptyString
        /\ ((matchProductSku url = Some m /\ all notSlashQuestion m = true)
            \/ (matchProductSku url = None /\ matchSlashSku url = Some m
                /\ 8 <= String.length m))).
Proof.
  assert (H : extractApplePartNumber url
              = match matchProductSku url with
                | Some m => Some m
                | None => matchSlashSku url
                end).
  { unfold extractApplePartNumber.
    destruct (matchProductSku url) as [m|] eqn:E1.
    - destruct (matchProductSku_sound _ _ E1) as (Hne & _).
      now rewrite (whenTruthy_truthy _ Hne).
    - cbn [whenTruthy]. destruct (matchSlashSku url) as [m|] eqn:E2;
        [|reflexivity].
      destruct (matchSlashSku_sound _ _ E2) as (Hl & _).
      assert (Hne : m <> EmptyString) by (intros ->; simpl in Hl; lia).
      rewrite (whenTruthy_truthy _ Hne).
      destruct (Nat.ltb_spec 7 (String.length m)); [reflexivity | lia]. }
  split; [exact H |]. rewrite H. intros m.
  destruct (matchProductSku url) as [m'|] eqn:E1.
  - intros Hm. inversion Hm; subst m'.
    destruct (matchProductSku_sound _ _ E1) as (Hne & Hq & _). auto.
  - intros E2. destruct (matchSlashSku_sound _ _ E2) as (Hl & _).
    split; [intros ->; simpl in Hl; lia | right; auto].
Qed.

Lemma extractApplePartNumber_part (url m : string) :
  extractApplePartNumber url = Some m ->
  m <> EmptyString /\ (forall p, all p url = true -> all p m = true).
Proof.
  unfold extractApplePartNumber.
  destruct (matchProductSku url) as [m1|] eqn:E1.
  - destruct (matchProductSku_sound _ _ E1) as (Hne & _ & Hsub & _).
    rewrite (whenTruthy_truthy _ Hne). intros H. inversion H; subst m1. auto.
  - cbn [whenTruthy]. destruct (matchSlashSku url) as [m2|] eqn:E2;
      [|discriminate].
    destruct (matchSlashSku_sound _ _ E2) as (Hl & Hsub).
    assert (Hne : m2 <> EmptyString) by (intros ->; simpl in Hl; lia).
    rewrite (whenTruthy_truthy _ Hne).
    destruct (7 <? String.length m2)%nat; [|discriminate].
    intros H. inversion H; subst m2. auto.
Qed.

Lemma notUpper_toLowerCaseChar (c : ascii) :
  notUpper (toLowerCaseChar c) = true.
Proof. destruct c as [[] [] [] [] [] [] [] []]; reflexivity. Qed.

Lemma notUpper_toLowerCase (s : string) : all notUpper (toLowerCase s) = true.
Proof.
  induction s as [|c s IH]; simpl; [reflexivity|].
  now rewrite notUpper_toLowerCaseChar, IH.
Qed.

Lemma toLowerCaseChar_toUpperCase (c : ascii) :
  toLowerCaseChar (toUpperCase c) = toLowerCaseChar c.
Proof. destruct c as [[] [] [] [] [] [] [] []]; reflexivity. Qed.

Lemma eqbI_toLowerCaseChar (c l : ascii) :
  eqbI c l = true -> toLowerCaseChar c = toLowerCaseChar l.
Proof.
  unfold eqbI. intros H. apply Ascii.eqb_eq in H.
  rewrite <- (toLowerCaseChar_toUpperCase c), H.
  apply toLowerCaseChar_toUpperCase.
Qed.

Lemma sameIgnoringCase_toLowerCase (a : string) :
  forall b, sameIgnoringCase a b = true -> toLowerCase a = toLowerCase b.
Proof.
  induction a as [|x a IH]; intros [|y b]; simpl; try discriminate;
    [reflexivity|].
  intros H. apply andb_prop in H. destruct H as [H1 H2].
  now rewrite (eqbI_toLowerCaseChar _ _ H1), (IH _ H2).
Qed.

Lemma prefixI_toLowerCase (lit : string) :
  forall s, prefixI lit s = true ->
            prefix (toLowerCase lit) (toLowerCase s) = true.
Proof.
  induction lit as [|l lit IH]; intros s H.
  - now destruct s.
  - destruct s as [|c s]; [discriminate|].
    cbn [prefixI] in H. apply andb_prop in H. destruct H as [H1 H2].
    cbn [toLowerCase prefix].
    rewrite (eqbI_toLowerCaseChar _ _ H1).
    destruct (ascii_dec (toLowerCaseChar l) (toLowerCaseChar l));
      [now apply IH | congruence].
Qed.

Lemma includesI_toLowerCase (lit s : string) :
  includesI s lit = true ->
  includes (toLowerCase s) (toLowerCase lit) = true.
Proof.
  induction s as [|c s IH]; cbn [includesI includes toLowerCase]; intros H.
  - rewrite orb_false_r in H. apply prefixI_toLowerCase in H.
    cbn [toLowerCase] in H. now rewrite H.
  - apply orb_prop in H. destruct H as [H|H].
    + apply prefixI_toLowerCase in H. cbn [toLowerCase] in H. now rewrite H.
    + rewrite (IH H). apply orb_true_r.
Qed.

(** X17: [getStoreDetails] returns the same object for two URLs that
    differ only in the case of ASCII letters.  A URL that contains
    [iqoo.com], in any letter case, is never labelled [vivo], and when
    [showPartNumber] is false the extracted value is [null]. *)
Theorem getStoreDetails_case_and_fields (P : Platform) (url1 url2 : string) :
  sameIgnoringCase url1 url2 = true ->
  getStoreDetails P url1 = getStoreDetails P url2
  /\ (includesI url1 "iqoo.com" = true ->
      details_storeType (getStoreDetails P url1) <> "vivo")
  /\ (showPartNumber (getStoreDetails P url1) = false ->
      extractedPartNumber (getStoreDetails P url1) = None).
Proof.
  intros Hsame. split.
  { unfold getStoreDetails.
    now rewrite (sameIgnoringCase_toLowerCase _ _ Hsame). }
  split.
  - intros Hi. apply includesI_toLowerCase in Hi.
    change (toLowerCase "iqoo.com") with "iqoo.com" in Hi.
    unfold getStoreDetails. cbv zeta. rewrite Hi.
    repeat match goal with
      | |- context [includes (toLowerCase url1) ?sig] =>
          destruct (includes (toLowerCase url1) sig)
      end; discriminate.
  - unfold getStoreDetails. cbv zeta.
    repeat match goal with
      | |- context [includes (toLowerCase url1) ?sig] =>
          destruct (includes (toLowerCase url1) sig)
      end; simpl; intros H; (discriminate || reflexivity).
Qed.

Lemma getStoreDetails_case_and_fields_witness :
  sameIgnoringCase "HTTPS://WWW.CROMA.COM/Some-Phone/P/123456"
    "https://www.croma.com/some-phone/p/123456" = true
  /\ getStoreDetails
       (urlPlatform "https://www.croma.com/some-phone/p/123456"
          "www.croma.com" "/some-phone/p/123456")
       "HTTPS://WWW.CROMA.COM/Some-Phone/P/123456"
     = {| details_storeType := "unknown"; showPartNumber := true;
          extractedPartNumber := Some "123456" |}.
Proof.
  split; [reflexivity |].
  exact (eq_trans
           (proj1 (getStoreDetails_case_and_fields
                     (urlPlatform "https://www.croma.com/some-phone/p/123456"
                        "www.croma.com" "/some-phone/p/123456")
                     "HTTPS://WWW.CROMA.COM/Some-Phone/P/123456"
                     "https://www.croma.com/some-phone/p/123456" eq_refl))
           eq_refl).
Defined.

(** X18: for every URL that contains [apple.com], in any letter case,
    [getStoreDetails] reports the store type [unicorn] with the part
    number field shown, and the part number is the one
    [extractApplePartNumber] finds in the lower-cased URL: when there is
    one it is not empty and holds no upper-case ASCII letter, whatever
    the case of the part number in the URL. *)
Theorem apple_extraction_is_lower_case (P : Platform) (url : string) :
  includesI url "apple.com" = true ->
  details_storeType (getStoreDetails P url) = "unicorn"
  /\ showPartNumber (getStoreDetails P url) = true
  /\ extractedPartNumber (getStoreDetails P url)
     = extractApplePartNumber (toLowerCase url)
  /\ (forall m, extractedPartNumber (getStoreDetails P url) = Some m ->
        m <> EmptyString /\ all notUpper m = true).
Proof.
  intros Ha. apply includesI_toLowerCase in Ha.
  change (toLowerCase "apple.com") with "apple.com" in Ha.
  unfold getStoreDetails. cbv zeta. rewrite Ha. simpl.
  split; [reflexivity |]. split; [reflexivity |]. split; [reflexivity |].
  intros m Hm.
  destruct (extractApplePartNumber_part (toLowerCase url) m Hm)
    as [Hne Hsub].
  split; [exact Hne |]. apply Hsub, notUpper_toLowerCase.
Qed.

Lemma apple_extraction_is_lower_case_witness :
  (includesI "https://www.Apple.com/in/shop/product/MG6P4HN/A" "apple.com"
   = true
   /\ getStoreDetails (tablePlatform [] [] [])
        "https://www.Apple.com/in/shop/product/MG6P4HN/A"
      = {| details_storeType := "unicorn"; showPartNumber := true;
           extractedPartNumber := Some "mg6p4hn" |}
   /\ all notUpper "mg6p4hn" = true)
  /\ (includesI "https://www.Apple.com/" "apple.com" = true
      /\ details_storeType
           (getStoreDetails (tablePlatform [] [] []) "https://www.Apple.com/")
         = "unicorn"
      /\ showPartNumber
           (getStoreDetails (tablePlatform [] [] []) "https://www.Apple.com/")
         = true
      /\ extractedPartNumber
           (getStoreDetails (tablePlatform [] [] []) "https://www.Apple.com/")
         = None).
Proof.
  split.
  - split; [reflexivity |]. split; [reflexivity |].
    exact (proj2 (proj2 (proj2 (proj2
             (apple_extraction_is_lower_case (tablePlatform [] [] [])
                "https://www.Apple.com/in/shop/product/MG6P4HN/A" eq_refl)))
             "mg6p4hn" eq_refl)).
  - split; [reflexivity |].
    destruct (apple_extraction_is_lower_case (tablePlatform [] [] [])
                "https://www.Apple.com/" eq_refl) as (H1 & H2 & H3 & _).
    split; [exact H1 |]. split; [exact H2 |].
    exact (eq_trans H3 eq_refl).
Defined.

Example extractApplePartNumber_second_pattern :
  extractApplePartNumber "https://www.apple.com/in/shop/buy-iphone/mg6p4hn/a"
  = Some "iphone/m".
Proof. reflexivity. Qed.

Example getStoreDetails_iqoo :
  getStoreDetails (tablePlatform [] [] [])
    "https://mshop.IQOO.com/in/products/vivo.com"
  = {| details_storeType := "iqoo"; showPartNumber := false;
       extractedPartNumber := None |}.
Proof. reflexivity. Qed.
